(** * Digital twin simulation: the chemistry engine of
      [src/components/DigitalTwinSimulation.tsx]

    The component keeps three levels (Dopamine, Oxytocin, Cortisol), a
    capped event log and a capped chart history, and mutates them from an
    interval callback.  This file embeds the state, the updater functions
    and the effect that installs the interval, and proves the properties
    the specification states about them.

    Numbers.  The source computes with JavaScript numbers, binary64 floats.
    The engine is modelled on the rationals [Q] with exact arithmetic, and
    next to it the updater and the memo are written once more on primitive
    floats ([updateBioDataF], [recommendationsF]).  Every level the engine
    can hold is a multiple of 0.5 between 0 and 100
    ([reachable_half_grid]); on those the two agree ([updateBioDataF_exact],
    [lockstep_exact], [recommendationsF_exact]), which is checked by
    evaluating both at each of the 201 values.  [==] is equality of
    rationals; [=] on [Q] is equality of the representation and is used
    where it holds. *)

From Stdlib Require Import QArith Qminmax Qround ZArith List String Ascii Bool Lia.
From Stdlib Require Import PrimFloat Uint63.
From Stdlib Require Import Lqa.
Import ListNotations.

Open Scope Q_scope.

(** ** JavaScript primitives used by the component *)

Module JS.

(** [x > y] and [x < y] on numbers. *)
Definition gt (x y : Q) : bool := negb (Qle_bool x y).
Definition lt (x y : Q) : bool := negb (Qle_bool y x).

(** [Math.max] and [Math.min] at two arguments. *)
Definition Math_max (x y : Q) : Q := Qmax x y.
Definition Math_min (x y : Q) : Q := Qmin x y.

(** [Math.floor]. *)
Definition Math_floor (x : Q) : Z := Qfloor x.

(** [a.slice(0, n)]: the first [n] elements. *)
Definition slice_to {A} (n : nat) (a : list A) : list A := firstn n a.

(** [a.slice(-n)]: the last [n] elements; the start index is
    [max (length - n) 0]. *)
Definition slice_last {A} (n : nat) (a : list A) : list A :=
  skipn (List.length a - n) a.

(** [s.replace(c, d)] with a one-character string pattern: only the first
    occurrence is replaced. *)
Fixpoint replace (c d : ascii) (s : string) : string :=
  match s with
  | EmptyString => EmptyString
  | String a rest =>
      if Ascii.eqb a c then String d rest else String a (replace c d rest)
  end.

(** [s.toUpperCase()] on ASCII text. *)
Definition upper (a : ascii) : ascii :=
  let n := nat_of_ascii a in
  if ((97 <=? n) && (n <=? 122))%nat then ascii_of_nat (n - 32) else a.

Fixpoint toUpperCase (s : string) : string :=
  match s with
  | EmptyString => EmptyString
  | String a rest => String (upper a) (toUpperCase rest)
  end.

(** Truthiness of a [number | null] reference: [null] and [0] are falsy. *)
Definition truthy (r : option nat) : bool :=
  match r with
  | Some (S _) => true
  | _ => false
  end.

End JS.

(** ** Data *)

Record Chemistry := mkChemistry {
  Dopamine : Q;
  Oxytocin : Q;
  Cortisol : Q
}.

Record LogEntry := mkLogEntry {
  id : nat;
  event : string;
  data : Chemistry;
  timestamp : string
}.

(** [Chemistry & { time: string }]: the three levels spread next to [time]. *)
Record HistoryPoint := mkHistoryPoint {
  pDopamine : Q;
  pOxytocin : Q;
  pCortisol : Q;
  time : string
}.

(** [{ ...chemistry, time }] *)
Definition spread_time (c : Chemistry) (t : string) : HistoryPoint :=
  mkHistoryPoint (Dopamine c) (Oxytocin c) (Cortisol c) t.

Definition point_chemistry (p : HistoryPoint) : Chemistry :=
  mkChemistry (pDopamine p) (pOxytocin p) (pCortisol p).

Record Recommendation := mkRecommendation {
  type : string;
  msg : string;
  color : string
}.

(** Field assignments [next.X = v]. *)
Definition set_Dopamine (v : Q) (c : Chemistry) : Chemistry :=
  mkChemistry v (Oxytocin c) (Cortisol c).
Definition set_Oxytocin (v : Q) (c : Chemistry) : Chemistry :=
  mkChemistry (Dopamine c) v (Cortisol c).
Definition set_Cortisol (v : Q) (c : Chemistry) : Chemistry :=
  mkChemistry (Dopamine c) (Oxytocin c) v.

(** Equality of levels as numbers. *)
Definition chem_eq (a b : Chemistry) : Prop :=
  Dopamine a == Dopamine b /\ Oxytocin a == Oxytocin b /\ Cortisol a == Cortisol b.

Definition chem_eqb (a b : Chemistry) : bool :=
  Qeq_bool (Dopamine a) (Dopamine b) && Qeq_bool (Oxytocin a) (Oxytocin b)
  && Qeq_bool (Cortisol a) (Cortisol b).

(** Every level lies in [0, 100]. *)
Definition in_range (c : Chemistry) : Prop :=
  (0 <= Dopamine c <= 100) /\ (0 <= Oxytocin c <= 100) /\ (0 <= Cortisol c <= 100).

(** ** The updater of [updateBioData] *)

Open Scope string_scope.
Open Scope list_scope.

Definition updateBioData (interactionType : string) (prev : Chemistry) : Chemistry :=
  let next := prev in
  let next :=
    if String.eqb interactionType "physical_touch" then
      let next := set_Oxytocin (Oxytocin next + 15) next in
      let next := set_Cortisol (Cortisol next - 5) next in
      set_Dopamine (Dopamine next + 5) next
    else if String.eqb interactionType "argument" then
      let next := set_Cortisol (Cortisol next + 20) next in
      let next := set_Dopamine (Dopamine next - 10) next in
      set_Oxytocin (Oxytocin next - 8) next
    else if String.eqb interactionType "deep_talk" then
      let next := set_Oxytocin (Oxytocin next + 12) next in
      let next := set_Dopamine (Dopamine next + 8) next in
      set_Cortisol (Cortisol next - 3) next
    else if String.eqb interactionType "none" then
      let next :=
        set_Dopamine (if JS.gt (Dopamine next) 50
                      then Dopamine next - (1#2) else Dopamine next + (1#2)) next in
      let next :=
        set_Oxytocin (if JS.gt (Oxytocin next) 50
                      then Oxytocin next - (1#2) else Oxytocin next + (1#2)) next in
      set_Cortisol (if JS.gt (Cortisol next) 20
                    then Cortisol next - (1#2) else Cortisol next + (1#2)) next
    else next in
  {| Dopamine := JS.Math_max 0 (JS.Math_min 100 (Dopamine next));
     Oxytocin := JS.Math_max 0 (JS.Math_min 100 (Oxytocin next));
     Cortisol := JS.Math_max 0 (JS.Math_min 100 (Cortisol next)) |}.

(** ** The [recommendations] memo *)

Definition stress_alert : Recommendation :=
  {| type := "STRESS ALERT";
     msg := "ระดับคอร์ติซอลสูงเกินเกณฑ์ แนะนำให้ทำสมาธิ 10 นาที หรือฝึกหายใจลึกๆ";
     color := "text-red-400 border-red-900/50 bg-red-950/20" |}.

Definition bonding_deficit : Recommendation :=
  {| type := "BONDING DEFICIT";
     msg := "ระดับออกซิโตซินต่ำ แนะนำให้พูดคุยเชิงลึกหรือกอดคนรักเพื่อสร้างความผูกพัน";
     color := "text-purple-400 border-purple-900/50 bg-purple-950/20" |}.

Definition low_reward : Recommendation :=
  {| type := "LOW REWARD";
     msg := "ระดับโดปามีนต่ำ แนะนำให้หากิจกรรมที่สร้างสรรค์หรือออกกำลังกายเบาๆ";
     color := "text-yellow-400 border-yellow-900/50 bg-yellow-950/20" |}.

Definition optimal_state : Recommendation :=
  {| type := "OPTIMAL STATE";
     msg := "สภาวะทางเคมีในสมองอยู่ในเกณฑ์สมดุล (Equilibrium) ให้รักษากิจวัตรเดิมไว้";
     color := "text-emerald-400 border-emerald-900/50 bg-emerald-950/20" |}.

(** [list.push(x)] *)
Definition push {A} (x : A) (list : Datatypes.list A) : Datatypes.list A := list ++ [x].

Definition recommendations (chemistry : Chemistry) : Datatypes.list Recommendation :=
  let list := [] in
  let list := if JS.gt (Cortisol chemistry) 60 then push stress_alert list else list in
  let list := if JS.lt (Oxytocin chemistry) 40 then push bonding_deficit list else list in
  let list := if JS.lt (Dopamine chemistry) 30 then push low_reward list else list in
  let list := if (List.length list =? 0)%nat then push optimal_state list else list in
  list.

(** ** The component state and the browser's interval timers *)

Record Engine := mkEngine {
  isRunning : bool;
  chemistry : Chemistry;
  logs : list LogEntry;
  history : list HistoryPoint;
  logIdRef : nat;
  intervalRef : option nat;
  (* the window: handles of the installed interval timers, next free handle *)
  intervals : list nat;
  nextHandle : nat
}.

(** The values of [useState] and [useRef] at the first render. *)
Definition initial : Engine :=
  {| isRunning := false;
     chemistry := {| Dopamine := 50; Oxytocin := 50; Cortisol := 20 |};
     logs := [];
     history := [];
     logIdRef := 0;
     intervalRef := None;
     intervals := [];
     nextHandle := 1 |}.

(** [intervalRef.current = window.setInterval(callback, 2000)] *)
Definition setInterval (s : Engine) : Engine :=
  {| isRunning := isRunning s; chemistry := chemistry s; logs := logs s;
     history := history s; logIdRef := logIdRef s;
     intervalRef := Some (nextHandle s);
     intervals := nextHandle s :: intervals s;
     nextHandle := S (nextHandle s) |}.

(** [clearInterval(intervalRef.current)]; the reference keeps its value. *)
Definition clearInterval (s : Engine) : Engine :=
  match intervalRef s with
  | Some h =>
      {| isRunning := isRunning s; chemistry := chemistry s; logs := logs s;
         history := history s; logIdRef := logIdRef s;
         intervalRef := intervalRef s;
         intervals := filter (fun x => negb (x =? h)%nat) (intervals s);
         nextHandle := nextHandle s |}
  | None => s
  end.

(** The body of the effect and the cleanup it returns. *)
Definition effect (s : Engine) : Engine :=
  if isRunning s then setInterval s
  else if JS.truthy (intervalRef s) then clearInterval s
  else s.

Definition cleanup (s : Engine) : Engine :=
  if JS.truthy (intervalRef s) then clearInterval s else s.

(** A render after [isRunning] or [chemistry] changed: the cleanup of the
    previous effect runs, then the effect. *)
Definition rerender (s : Engine) : Engine := effect (cleanup s).

(** The first render: the effect runs, there is no cleanup yet. *)
Definition mount : Engine := effect initial.

(** [setIsRunning(b)]: a state that does not change schedules no render. *)
Definition setIsRunning (b : bool) (s : Engine) : Engine :=
  if Bool.eqb (isRunning s) b then s
  else rerender
         {| isRunning := b; chemistry := chemistry s; logs := logs s;
            history := history s; logIdRef := logIdRef s;
            intervalRef := intervalRef s; intervals := intervals s;
            nextHandle := nextHandle s |}.

(** The button: [onClick={() => setIsRunning(!isRunning)}]. *)
Definition toggle (s : Engine) : Engine := setIsRunning (negb (isRunning s)) s.

Definition start : Engine -> Engine := setIsRunning true.
Definition stop : Engine -> Engine := setIsRunning false.

(** The draw of the interval callback:
    [events[Math.floor(Math.random() * events.length)]]. *)
Definition events : list string :=
  ["physical_touch"; "argument"; "deep_talk"; "none"; "none"].

Definition draw (random : Q) : option string :=
  nth_error events
    (Z.to_nat (JS.Math_floor (random * inject_Z (Z.of_nat (List.length events))))).

(** The entry and the point one run of the callback builds; both read the
    [chemistry] of the render that installed the interval. *)
Definition newLog (event timestamp : string) (s : Engine) : LogEntry :=
  {| id := logIdRef s;
     event := JS.toUpperCase (JS.replace "_" " " event);
     data := chemistry s;
     timestamp := timestamp |}.

Definition newPoint (timestamp : string) (s : Engine) : HistoryPoint :=
  spread_time (chemistry s) timestamp.

(** One run of the interval callback with the drawn [event] and the
    formatted clock reading [timestamp]: the three updaters are applied and
    the component renders again with a new [chemistry]. *)
Definition tick (event timestamp : string) (s : Engine) : Engine :=
  rerender
    {| isRunning := isRunning s;
       chemistry := updateBioData event (chemistry s);
       logs := JS.slice_to 5 (newLog event timestamp s :: logs s);
       history := JS.slice_last 15 (history s ++ [newPoint timestamp s]);
       logIdRef := S (logIdRef s);
       intervalRef := intervalRef s;
       intervals := intervals s;
       nextHandle := nextHandle s |}.

(** What can happen to a mounted component: a click on the button, or an
    installed interval fires. *)
Inductive step : Engine -> Engine -> Prop :=
| step_click : forall s, step s (toggle s)
| step_interval : forall s h random event timestamp,
    In h (intervals s) ->
    0 <= random -> random < 1 ->
    draw random = Some event ->
    step s (tick event timestamp s).

Inductive reachable : Engine -> Prop :=
| reach_mount : reachable mount
| reach_step : forall s s', reachable s -> step s s' -> reachable s'.

(** The same runs, recording every entry and every point ever built, in
    the order of the ticks. *)
Inductive chronicle : list LogEntry -> list HistoryPoint -> Engine -> Prop :=
| chron_mount : chronicle [] [] mount
| chron_click : forall es ps s, chronicle es ps s -> chronicle es ps (toggle s)
| chron_interval : forall es ps s h random event timestamp,
    chronicle es ps s ->
    In h (intervals s) ->
    0 <= random -> random < 1 ->
    draw random = Some event ->
    chronicle (es ++ [newLog event timestamp s]) (ps ++ [newPoint timestamp s])
              (tick event timestamp s).

(** [n] runs of the callback with the same event. *)
Fixpoint ticks (n : nat) (event timestamp : string) (s : Engine) : Engine :=
  match n with
  | O => s
  | S n => ticks n event timestamp (tick event timestamp s)
  end.

(** ** The transition table in the words of the specification *)

Inductive InteractionKind := PhysicalTouch | Argument | DeepTalk | NoInteraction.

Definition kind_name (k : InteractionKind) : string :=
  match k with
  | PhysicalTouch => "physical_touch"
  | Argument => "argument"
  | DeepTalk => "deep_talk"
  | NoInteraction => "none"
  end.

Definition clamp (x : Q) : Q :=
  if JS.lt x 0 then 0 else if JS.gt x 100 then 100 else x.

Definition drift (baseline x : Q) : Q :=
  if JS.gt x baseline then x - (1#2) else x + (1#2).

Definition spec_delta (k : InteractionKind) (c : Chemistry) : Chemistry :=
  match k with
  | PhysicalTouch => mkChemistry (Dopamine c + 5) (Oxytocin c + 15) (Cortisol c - 5)
  | Argument => mkChemistry (Dopamine c - 10) (Oxytocin c - 8) (Cortisol c + 20)
  | DeepTalk => mkChemistry (Dopamine c + 8) (Oxytocin c + 12) (Cortisol c - 3)
  | NoInteraction =>
      mkChemistry (drift 50 (Dopamine c)) (drift 50 (Oxytocin c)) (drift 20 (Cortisol c))
  end.

Definition spec_transition (k : InteractionKind) (c : Chemistry) : Chemistry :=
  let d := spec_delta k c in
  mkChemistry (clamp (Dopamine d)) (clamp (Oxytocin d)) (clamp (Cortisol d)).

(** The levels of the first render, the baseline of the drift. *)
Definition baseline : Chemistry :=
  {| Dopamine := 50; Oxytocin := 50; Cortisol := 20 |}.

(** The label a log entry shows for each kind. *)
Definition kind_label (k : InteractionKind) : string :=
  match k with
  | PhysicalTouch => "PHYSICAL TOUCH"
  | Argument => "ARGUMENT"
  | DeepTalk => "DEEP TALK"
  | NoInteraction => "NONE"
  end.

(** A running engine after one tick, used to instantiate the theorems. *)
Definition after_argument : Engine := tick "argument" "12:00:01" (toggle mount).

(** The timers of a mounted component: handles are positive and below the
    next free one; while running exactly the interval of [intervalRef] is
    installed, while idle none is. *)
Definition timer_inv (s : Engine) : Prop :=
  (1 <= nextHandle s)%nat /\
  match intervalRef s with
  | Some h => (1 <= h < nextHandle s)%nat
  | None => True
  end /\
  if isRunning s
  then exists h, intervalRef s = Some h /\ intervals s = [h]
  else intervals s = [].

(** ** The arithmetic of the source on IEEE doubles

    The same updater and the same memo with the numbers of the source,
    binary64 floats.  [exact] relates a state of doubles to a state of
    rationals that denotes the same three numbers, each a count of halves
    between 0 and 100. *)

Record ChemistryF := mkChemistryF {
  DopamineF : float;
  OxytocinF : float;
  CortisolF : float
}.

(** [Math.max] and [Math.min] of two doubles: NaN if an argument is NaN, and
    of two zeros the positive (the negative) one. *)
Definition Math_maxF (x y : float) : float :=
  if is_nan x || is_nan y then nan
  else if PrimFloat.ltb x y then y
  else if PrimFloat.ltb y x then x
  else if get_sign x then y else x.

Definition Math_minF (x y : float) : float :=
  if is_nan x || is_nan y then nan
  else if PrimFloat.ltb x y then x
  else if PrimFloat.ltb y x then y
  else if get_sign x then x else y.

Definition updateBioDataF (interactionType : string) (prev : ChemistryF) : ChemistryF :=
  let next := prev in
  let next :=
    if String.eqb interactionType "physical_touch" then
      let next := mkChemistryF (DopamineF next) (OxytocinF next + 15)%float (CortisolF next) in
      let next := mkChemistryF (DopamineF next) (OxytocinF next) (CortisolF next - 5)%float in
      mkChemistryF (DopamineF next + 5)%float (OxytocinF next) (CortisolF next)
    else if String.eqb interactionType "argument" then
      let next := mkChemistryF (DopamineF next) (OxytocinF next) (CortisolF next + 20)%float in
      let next := mkChemistryF (DopamineF next - 10)%float (OxytocinF next) (CortisolF next) in
      mkChemistryF (DopamineF next) (OxytocinF next - 8)%float (CortisolF next)
    else if String.eqb interactionType "deep_talk" then
      let next := mkChemistryF (DopamineF next) (OxytocinF next + 12)%float (CortisolF next) in
      let next := mkChemistryF (DopamineF next + 8)%float (OxytocinF next) (CortisolF next) in
      mkChemistryF (DopamineF next) (OxytocinF next) (CortisolF next - 3)%float
    else if String.eqb interactionType "none" then
      let next :=
        mkChemistryF (if PrimFloat.ltb 50 (DopamineF next)
                      then DopamineF next - 0.5 else DopamineF next + 0.5)%float
                     (OxytocinF next) (CortisolF next) in
      let next :=
        mkChemistryF (DopamineF next)
                     (if PrimFloat.ltb 50 (OxytocinF next)
                      then OxytocinF next - 0.5 else OxytocinF next + 0.5)%float
                     (CortisolF next) in
      mkChemistryF (DopamineF next) (OxytocinF next)
                   (if PrimFloat.ltb 20 (CortisolF next)
                    then CortisolF next - 0.5 else CortisolF next + 0.5)%float
    else next in
  {| DopamineF := Math_maxF 0 (Math_minF 100 (DopamineF next));
     OxytocinF := Math_maxF 0 (Math_minF 100 (OxytocinF next));
     CortisolF := Math_maxF 0 (Math_minF 100 (CortisolF next)) |}.

Definition recommendationsF (chemistry : ChemistryF) : Datatypes.list Recommendation :=
  let list := [] in
  let list := if PrimFloat.ltb 60 (CortisolF chemistry) then push stress_alert list else list in
  let list := if PrimFloat.ltb (OxytocinF chemistry) 40 then push bonding_deficit list else list in
  let list := if PrimFloat.ltb (DopamineF chemistry) 30 then push low_reward list else list in
  let list := if (List.length list =? 0)%nat then push optimal_state list else list in
  list.

(** The clamp of the updater after a level function. *)
Definition clampedQ (f : Q -> Q) (q : Q) : Q :=
  JS.Math_max 0 (JS.Math_min 100 (f q)).
Definition clampedF (f : float -> float) (x : float) : float :=
  Math_maxF 0 (Math_minF 100 (f x)).

(** [k] halves, as a rational and as a double. *)
Definition halfQ (k : nat) : Q := Z.of_nat k # 2.
Definition halfF (k : nat) : float := (of_uint63 (Uint63.of_Z (Z.of_nat k)) / 2)%float.

(** The number of halves in a rational. *)
Definition halves (q : Q) : nat := Z.to_nat (Qfloor (q * 2)).

Definition exact (cF : ChemistryF) (c : Chemistry) : Prop :=
  exists k1 k2 k3 : nat,
    (k1 <= 200)%nat /\ (k2 <= 200)%nat /\ (k3 <= 200)%nat /\
    chem_eq c (mkChemistry (halfQ k1) (halfQ k2) (halfQ k3)) /\
    cF = mkChemistryF (halfF k1) (halfF k2) (halfF k3).

(** Every level, as a double, lies in [0, 100]. *)
Definition level_in_rangeF (x : float) : bool :=
  PrimFloat.leb 0 x && PrimFloat.leb x 100.

Definition in_rangeF (c : ChemistryF) : Prop :=
  level_in_rangeF (DopamineF c) = true /\
  level_in_rangeF (OxytocinF c) = true /\
  level_in_rangeF (CortisolF c) = true.

(** A function on rationals and a function on doubles that agree on every
    count of halves up to 100, and stay among them. *)
Definition tracks (fQ : Q -> Q) (fF : float -> float) : Prop :=
  forall k : nat, (k <= 200)%nat ->
    (halves (fQ (halfQ k)) <=? 200)%nat = true /\
    Qeq_bool (fQ (halfQ k)) (halfQ (halves (fQ (halfQ k)))) = true /\
    fF (halfF k) = halfF (halves (fQ (halfQ k))).

(** The doubles the component holds along a run, next to the model's state:
    a click leaves them alone, a tick applies the updater on doubles. *)
Inductive lockstep : Engine -> ChemistryF -> Prop :=
| lock_mount : lockstep mount (mkChemistryF 50 50 20)
| lock_click : forall s cF, lockstep s cF -> lockstep (toggle s) cF
| lock_interval : forall s cF h random event timestamp,
    lockstep s cF ->
    In h (intervals s) ->
    0 <= random -> random < 1 ->
    draw random = Some event ->
    lockstep (tick event timestamp s) (updateBioDataF event cF).

(** ** The rendered view *)

(** [Math.round]: the nearest integer, a half goes up. *)
Definition Math_round (x : Q) : Z := Qfloor (x + (1#2)).

(** [keyof Chemistry], and [chemistry[key]]. *)
Inductive ChemistryKey := KDopamine | KOxytocin | KCortisol.

Definition level (chemistry : Chemistry) (key : ChemistryKey) : Q :=
  match key with
  | KDopamine => Dopamine chemistry
  | KOxytocin => Oxytocin chemistry
  | KCortisol => Cortisol chemistry
  end.

Definition key_eqb (a b : ChemistryKey) : bool :=
  match a, b with
  | KDopamine, KDopamine | KOxytocin, KOxytocin | KCortisol, KCortisol => true
  | _, _ => false
  end.

Definition getChemistryColor (val : Q) (type : ChemistryKey) : string :=
  if key_eqb type KCortisol && JS.gt val 60 then "text-red-500"
  else if key_eqb type KDopamine then "text-yellow-500"
  else if key_eqb type KOxytocin then "text-purple-500"
  else "text-slate-300".

(** One status bar: the class of the number, the number shown before the
    percent sign, the class of the bar and its width in percent. *)
Record MetricBar := mkMetricBar {
  bar_key : ChemistryKey;
  bar_text : string;
  bar_percent : Z;
  bar_fill : string;
  bar_width : Q
}.

Definition metric_bars (chemistry : Chemistry) : list MetricBar :=
  map (fun key =>
         {| bar_key := key;
            bar_text := getChemistryColor (level chemistry key) key;
            bar_percent := Math_round (level chemistry key);
            bar_fill := if key_eqb key KDopamine then "bg-yellow-500"
                        else if key_eqb key KOxytocin then "bg-purple-500"
                        else "bg-red-500";
            bar_width := level chemistry key |})
      [KDopamine; KOxytocin; KCortisol].

(** One row of the event stream: its React key, the clock reading, the
    label and its class, and the three numbers after D, O and C. *)
Record LogRow := mkLogRow {
  row_key : nat;
  row_time : string;
  row_event : string;
  row_color : string;
  row_levels : Z * Z * Z
}.

Definition log_row (log : LogEntry) : LogRow :=
  {| row_key := id log;
     row_time := timestamp log;
     row_event := event log;
     row_color := if String.eqb (event log) "ARGUMENT"
                  then "text-red-400" else "text-indigo-400";
     row_levels := (Math_round (Dopamine (data log)),
                    Math_round (Oxytocin (data log)),
                    Math_round (Cortisol (data log))) |}.

(** The event stream: [None] is the placeholder shown for an empty log. *)
Definition event_stream (logs : list LogEntry) : option (list LogRow) :=
  if (List.length logs =? 0)%nat then None else Some (map log_row logs).

(** ** Snapshots that follow each other *)

(** [q] is what one tick with a drawn event makes of [p]. *)
Definition follows (p q : Chemistry) : Prop :=
  exists e, In e events /\ q = updateBioData e p.

(** Every point of the list is followed by its successor. *)
Definition chained (l : list HistoryPoint) : Prop :=
  forall l1 p q l2, l = l1 ++ p :: q :: l2 ->
    follows (point_chemistry p) (point_chemistry q).

(** * Proofs *)

(** ** Comparisons and clamping *)

Lemma gt_true (x y : Q) : JS.gt x y = true <-> y < x.
Proof.
  unfold JS.gt. rewrite negb_true_iff, <- not_true_iff_false, Qle_bool_iff.
  split; [apply Qnot_le_lt | apply Qlt_not_le].
Qed.

Lemma gt_false (x y : Q) : JS.gt x y = false <-> x <= y.
Proof.
  unfold JS.gt. rewrite negb_false_iff. apply Qle_bool_iff.
Qed.

Lemma lt_true (x y : Q) : JS.lt x y = true <-> x < y.
Proof. apply gt_true. Qed.

Lemma lt_false (x y : Q) : JS.lt x y = false <-> y <= x.
Proof. apply gt_false. Qed.

Lemma gt_spec (x y : Q) : BoolSpec (y < x) (x <= y) (JS.gt x y).
Proof.
  destruct (JS.gt x y) eqn:E; constructor;
    [apply gt_true | apply gt_false]; exact E.
Qed.

Lemma lt_spec (x y : Q) : BoolSpec (x < y) (y <= x) (JS.lt x y).
Proof. apply gt_spec. Qed.

Lemma max_min_range (x : Q) :
  0 <= JS.Math_max 0 (JS.Math_min 100 x) <= 100.
Proof.
  unfold JS.Math_max, JS.Math_min. split.
  - apply Q.le_max_l.
  - apply Q.max_lub; [discriminate | apply Q.le_min_l].
Qed.

Lemma max_min_clamp (x : Q) :
  JS.Math_max 0 (JS.Math_min 100 x) == clamp x.
Proof.
  unfold JS.Math_max, JS.Math_min, clamp.
  destruct (lt_spec x 0) as [H0|H0].
  - rewrite Q.max_l; [reflexivity|].
    rewrite Q.min_r; [apply Qlt_le_weak; exact H0|].
    apply Qle_trans with 0; [apply Qlt_le_weak; exact H0 | discriminate].
  - destruct (gt_spec x 100) as [H1|H1].
    + rewrite Q.min_l by (apply Qlt_le_weak; exact H1).
      apply Q.max_r; discriminate.
    + rewrite Q.min_r by exact H1. apply Q.max_r; exact H0.
Qed.

Lemma clamp_id (x : Q) : 0 <= x <= 100 -> clamp x = x.
Proof.
  intros [H0 H1]. unfold clamp.
  destruct (lt_spec x 0) as [H|_]; [exfalso; exact (Qlt_not_le _ _ H H0)|].
  destruct (gt_spec x 100) as [H|_]; [exfalso; exact (Qlt_not_le _ _ H H1)|].
  reflexivity.
Qed.

Lemma updateBioData_in_range (e : string) (c : Chemistry) :
  in_range (updateBioData e c).
Proof.
  unfold updateBioData, in_range; cbn [Dopamine Oxytocin Cortisol].
  repeat split; apply max_min_range.
Qed.

(** ** Renders change only the timers *)

Ltac unfold_render :=
  unfold tick, toggle, start, stop, setIsRunning, rerender, effect, cleanup,
    setInterval, clearInterval.

Ltac render_cases s :=
  destruct s as [run chem lg hist lid [[|h]|] ivs nh]; destruct run;
  cbn -[updateBioData JS.slice_to JS.slice_last newLog newPoint].

Lemma rerender_fields (s : Engine) :
  isRunning (rerender s) = isRunning s /\
  chemistry (rerender s) = chemistry s /\
  logs (rerender s) = logs s /\
  history (rerender s) = history s /\
  logIdRef (rerender s) = logIdRef s.
Proof. unfold_render. render_cases s; repeat split. Qed.

Lemma setIsRunning_fields (b : bool) (s : Engine) :
  isRunning (setIsRunning b s) = b /\
  chemistry (setIsRunning b s) = chemistry s /\
  logs (setIsRunning b s) = logs s /\
  history (setIsRunning b s) = history s /\
  logIdRef (setIsRunning b s) = logIdRef s.
Proof.
  unfold setIsRunning. destruct (Bool.eqb (isRunning s) b) eqn:E.
  - apply eqb_prop in E. repeat split; exact E.
  - destruct (rerender_fields
      {| isRunning := b; chemistry := chemistry s; logs := logs s;
         history := history s; logIdRef := logIdRef s;
         intervalRef := intervalRef s; intervals := intervals s;
         nextHandle := nextHandle s |}) as (H1 & H2 & H3 & H4 & H5).
    repeat split; assumption.
Qed.

Lemma tick_fields (e t : string) (s : Engine) :
  isRunning (tick e t s) = isRunning s /\
  chemistry (tick e t s) = updateBioData e (chemistry s) /\
  logs (tick e t s) = JS.slice_to 5 (newLog e t s :: logs s) /\
  history (tick e t s) = JS.slice_last 15 (history s ++ [newPoint t s]) /\
  logIdRef (tick e t s) = S (logIdRef s).
Proof.
  unfold tick.
  match goal with |- context [rerender ?x] =>
    destruct (rerender_fields x) as (H1 & H2 & H3 & H4 & H5) end.
  repeat split; assumption.
Qed.

Lemma chemistry_tick (e t : string) (s : Engine) :
  chemistry (tick e t s) = updateBioData e (chemistry s).
Proof. apply tick_fields. Qed.

Lemma chemistry_toggle (s : Engine) : chemistry (toggle s) = chemistry s.
Proof. apply setIsRunning_fields. Qed.

(** ** At most one interval is installed, and only while running *)

Lemma timer_inv_mount : timer_inv mount.
Proof. cbv. repeat split; lia. Qed.

Lemma filter_self (h : nat) :
  filter (fun x => negb (x =? h)%nat) [h] = [].
Proof. cbn. rewrite Nat.eqb_refl. reflexivity. Qed.

Lemma timer_inv_rerender (s : Engine) :
  (1 <= nextHandle s)%nat ->
  match intervalRef s with
  | Some h => (1 <= h < nextHandle s)%nat
  | None => True
  end ->
  (intervals s = [] \/ exists h, intervalRef s = Some h /\ intervals s = [h]) ->
  timer_inv (rerender s).
Proof.
  intros Hn Hr Hi. unfold timer_inv. unfold_render.
  destruct s as [run chem lg hist lid ref ivs nh]; cbn in *.
  destruct Hi as [-> | (h & -> & ->)].
  - destruct ref as [[|h]|], run; cbn; repeat split; eauto; lia.
  - destruct h as [|h]; [lia|]. cbn [JS.truthy].
    destruct run; cbn -[filter]; rewrite ?filter_self; cbn;
      rewrite ?Nat.eqb_refl; cbn; repeat split; eauto; lia.
Qed.

Lemma timer_inv_setIsRunning (b : bool) (s : Engine) :
  timer_inv s -> timer_inv (setIsRunning b s).
Proof.
  intros (Hn & Hr & Hi). unfold setIsRunning.
  destruct (Bool.eqb (isRunning s) b); [repeat split; assumption|].
  apply timer_inv_rerender; cbn; try assumption.
  destruct (isRunning s); [right | left]; assumption.
Qed.

Lemma timer_inv_tick (e t : string) (s : Engine) :
  timer_inv s -> timer_inv (tick e t s).
Proof.
  intros (Hn & Hr & Hi). unfold tick.
  apply timer_inv_rerender; cbn -[updateBioData JS.slice_to JS.slice_last];
    try assumption.
  destruct (isRunning s); [right | left]; assumption.
Qed.

Lemma reachable_timer_inv (s : Engine) : reachable s -> timer_inv s.
Proof.
  induction 1 as [|s s' _ IH Hstep].
  - exact timer_inv_mount.
  - destruct Hstep.
    + apply timer_inv_setIsRunning; exact IH.
    + apply timer_inv_tick; exact IH.
Qed.

(** An interval fires only while the component is running. *)
Lemma installed_running (s : Engine) (h : nat) :
  reachable s -> In h (intervals s) -> isRunning s = true.
Proof.
  intros Hr Hin. destruct (reachable_timer_inv s Hr) as (_ & _ & Hi).
  destruct (isRunning s); [reflexivity|].
  rewrite Hi in Hin. destruct Hin.
Qed.

(** ** Slices *)

Section Slices.
Context {A : Type}.
Implicit Types (l : list A) (x : A) (n : nat).

Lemma slice_last_length n l : (List.length (JS.slice_last n l) <= n)%nat.
Proof. unfold JS.slice_last. rewrite length_skipn. lia. Qed.

Lemma slice_to_length n l : (List.length (JS.slice_to n l) <= n)%nat.
Proof. apply firstn_le_length. Qed.

Lemma slice_last_all n l : (List.length l <= n)%nat -> JS.slice_last n l = l.
Proof.
  intros H. unfold JS.slice_last.
  replace (List.length l - n)%nat with 0%nat by lia. reflexivity.
Qed.

Lemma slice_last_app n l l' :
  JS.slice_last n (JS.slice_last n l ++ l') = JS.slice_last n (l ++ l').
Proof.
  unfold JS.slice_last.
  rewrite !skipn_app, skipn_skipn, !length_app, !length_skipn.
  f_equal; f_equal; lia.
Qed.

Lemma slice_last_snoc n l x :
  (1 <= n)%nat ->
  JS.slice_last n (l ++ [x]) = skipn (S (List.length l) - n) l ++ [x].
Proof.
  intros H. unfold JS.slice_last.
  rewrite skipn_app, length_app. cbn [List.length].
  replace (List.length l + 1 - n)%nat with (S (List.length l) - n)%nat by lia.
  replace (S (List.length l) - n - List.length l)%nat with 0%nat by lia.
  reflexivity.
Qed.

Lemma slice_last_snoc_room n l x :
  (List.length l < n)%nat -> JS.slice_last n (l ++ [x]) = l ++ [x].
Proof.
  intros H. apply slice_last_all. rewrite length_app. cbn. lia.
Qed.

Lemma slice_last_snoc_full n l x :
  (1 <= n)%nat -> List.length l = n ->
  JS.slice_last n (l ++ [x]) = tl l ++ [x].
Proof.
  intros Hn H. rewrite slice_last_snoc by exact Hn.
  replace (S (List.length l) - n)%nat with 1%nat by lia.
  destruct l; reflexivity.
Qed.

Lemma slice_to_cons n x l :
  JS.slice_to n (x :: JS.slice_to n l) = JS.slice_to n (x :: l).
Proof.
  unfold JS.slice_to. destruct n as [|n]; [reflexivity|].
  rewrite !firstn_cons, firstn_firstn.
  replace (Nat.min n (S n)) with n by lia. reflexivity.
Qed.

Lemma slice_to_cons_room n x l :
  (List.length l < n)%nat -> JS.slice_to n (x :: l) = x :: l.
Proof. intros H. apply firstn_all2. cbn. lia. Qed.

Lemma slice_to_cons_full n x l :
  (1 <= n)%nat -> List.length l = n ->
  JS.slice_to n (x :: l) = x :: removelast l.
Proof.
  intros Hn H. unfold JS.slice_to. destruct n as [|n]; [lia|].
  rewrite firstn_cons, removelast_firstn_len, H. reflexivity.
Qed.
End Slices.

(** ** The buffers along a run *)

Lemma chronicle_reachable es ps s : chronicle es ps s -> reachable s.
Proof.
  induction 1.
  - constructor.
  - eapply reach_step; [eassumption | constructor].
  - eapply reach_step; [eassumption | econstructor; eassumption].
Qed.

Lemma reachable_chronicle s : reachable s -> exists es ps, chronicle es ps s.
Proof.
  induction 1 as [|s s' _ (es & ps & IH) Hstep].
  - exists [], []. constructor.
  - destruct Hstep.
    + exists es, ps. constructor; exact IH.
    + eexists _, _. econstructor; eassumption.
Qed.

(** The history is the last 15 of all points, oldest first; the log is the
    first 5 of all entries, newest first; the counter numbers the ticks. *)
Lemma chronicle_buffers es ps s :
  chronicle es ps s ->
  history s = JS.slice_last 15 ps /\
  logs s = JS.slice_to 5 (rev es) /\
  logIdRef s = List.length es /\
  map id es = seq 0 (List.length es).
Proof.
  induction 1 as [|es ps s _ IH|es ps s h r e t _ IH _ _ _ _].
  - repeat split.
  - destruct IH as (Hh & Hl & Hn & Hi).
    destruct (setIsRunning_fields (negb (isRunning s)) s) as (_ & _ & E3 & E4 & E5).
    unfold toggle. rewrite E3, E4, E5. repeat split; assumption.
  - destruct IH as (Hh & Hl & Hn & Hi).
    destruct (tick_fields e t s) as (_ & _ & E3 & E4 & E5).
    rewrite E3, E4, E5, Hh, Hl. repeat split.
    + apply slice_last_app.
    + rewrite rev_app_distr. cbn [rev List.app]. apply slice_to_cons.
    + rewrite length_app. cbn. lia.
    + rewrite map_app, length_app, seq_app, Hi. cbn. rewrite Hn. reflexivity.
Qed.

Lemma reachable_buffer_lengths s :
  reachable s -> (List.length (history s) <= 15)%nat /\ (List.length (logs s) <= 5)%nat.
Proof.
  intros Hr. destruct (reachable_chronicle s Hr) as (es & ps & Hc).
  destruct (chronicle_buffers es ps s Hc) as (Hh & Hl & _).
  rewrite Hh, Hl. split; [apply slice_last_length | apply slice_to_length].
Qed.

(** ** The draw *)

(** [Math.random()] lies in [0, 1), so the index is one of 0..4 and the draw
    always yields one of the five events. *)
Lemma draw_total (random : Q) :
  0 <= random -> random < 1 ->
  exists event, draw random = Some event /\ In event events.
Proof.
  intros H0 H1. unfold draw, JS.Math_floor.
  change (inject_Z (Z.of_nat (List.length events))) with (inject_Z 5).
  assert (Hlo : (0 <= Qfloor (random * inject_Z 5))%Z).
  { change 0%Z with (Qfloor 0). apply Qfloor_resp_le.
    apply Qmult_le_0_compat; [exact H0 | discriminate]. }
  assert (Hhi : (Qfloor (random * inject_Z 5) < 5)%Z).
  { rewrite Zlt_Qlt. apply Qle_lt_trans with (random * inject_Z 5).
    - apply Qfloor_le.
    - setoid_replace (inject_Z 5) with (1 * inject_Z 5) at 2 by ring.
      apply Qmult_lt_compat_r; [reflexivity | exact H1]. }
  assert (Hn : (Z.to_nat (Qfloor (random * inject_Z 5)) < 5)%nat) by lia.
  destruct (nth_error events (Z.to_nat (Qfloor (random * inject_Z 5)))) as [e|] eqn:E.
  - exists e. split; [reflexivity|]. eapply nth_error_In. exact E.
  - apply nth_error_None in E.
    change (List.length events) with 5%nat in E. lia.
Qed.

(** ** The transition and runs used as examples *)

Lemma updateBioData_refines (k : InteractionKind) (c : Chemistry) :
  chem_eq (updateBioData (kind_name k) c) (spec_transition k c).
Proof.
  destruct k; unfold chem_eq, spec_transition, spec_delta, drift;
    cbn -[JS.Math_max JS.Math_min clamp JS.gt Qplus Qminus];
    repeat split; apply max_min_clamp.
Qed.

Lemma chemistry_ticks (n : nat) (e t : string) (s : Engine) :
  chemistry (ticks n e t s) = Nat.iter n (updateBioData e) (chemistry s).
Proof.
  revert s. induction n as [|n IH]; intros s; [reflexivity|].
  cbn [ticks]. rewrite IH, chemistry_tick. symmetry. apply Nat.iter_succ_r.
Qed.

Lemma reachable_after_argument : reachable after_argument.
Proof.
  unfold after_argument.
  apply reach_step with (toggle mount).
  - apply reach_step with mount; constructor.
  - apply step_interval with (h := 1%nat) (random := 1#5).
    + left; reflexivity.
    + discriminate.
    + reflexivity.
    + reflexivity.
Qed.

Lemma chronicle_toggle_mount : chronicle [] [] (toggle mount).
Proof. apply chron_click, chron_mount. Qed.

Lemma reachable_stopped_after_argument : reachable (toggle after_argument).
Proof.
  apply reach_step with after_argument;
    [exact reachable_after_argument | constructor].
Qed.

(** From the baseline a [none] tick moves every level off the baseline and
    the next one moves it back: the levels alternate. *)
Lemma none_alternates :
  chem_eq (updateBioData "none" baseline) (mkChemistry (101#2) (101#2) (41#2)) /\
  chem_eq (updateBioData "none" (updateBioData "none" baseline)) baseline.
Proof. repeat split; reflexivity. Qed.

(** ** Recommendations *)

Lemma recommendations_cases (c : Chemistry) :
  recommendations c =
    (if JS.gt (Cortisol c) 60 then [stress_alert] else []) ++
    (if JS.lt (Oxytocin c) 40 then [bonding_deficit] else []) ++
    (if JS.lt (Dopamine c) 30 then [low_reward] else []) ++
    (if JS.gt (Cortisol c) 60 || JS.lt (Oxytocin c) 40 || JS.lt (Dopamine c) 30
     then [] else [optimal_state]).
Proof.
  unfold recommendations, push.
  destruct (JS.gt (Cortisol c) 60), (JS.lt (Oxytocin c) 40),
    (JS.lt (Dopamine c) 30); reflexivity.
Qed.

Lemma recommendations_compat (c c' : Chemistry) :
  chem_eq c c' -> recommendations c = recommendations c'.
Proof.
  intros (Hd & Ho & Hc). rewrite !recommendations_cases.
  assert (Ec : JS.gt (Cortisol c) 60 = JS.gt (Cortisol c') 60)
    by (unfold JS.gt; rewrite Hc; reflexivity).
  assert (Eo : JS.lt (Oxytocin c) 40 = JS.lt (Oxytocin c') 40)
    by (unfold JS.lt; rewrite Ho; reflexivity).
  assert (Ed : JS.lt (Dopamine c) 30 = JS.lt (Dopamine c') 30)
    by (unfold JS.lt; rewrite Hd; reflexivity).
  rewrite Ec, Eo, Ed. reflexivity.
Qed.

Ltac distinct_cards :=
  repeat match goal with
  | H : _ \/ _ |- _ => destruct H
  | H : _ /\ _ |- _ => destruct H
  | H : False |- _ => destruct H
  | H : _ = _ :> Recommendation |- _ => discriminate H
  end.

(** ** Points and labels *)

Lemma point_chemistry_spread (c : Chemistry) (t : string) :
  point_chemistry (spread_time c t) = c.
Proof. destruct c; reflexivity. Qed.

Lemma drawn_kind (e : string) : In e events -> exists k, e = kind_name k.
Proof.
  cbn. intros [<-|[<-|[<-|[<-|[<-|[]]]]]];
    [exists PhysicalTouch | exists Argument | exists DeepTalk
    | exists NoInteraction | exists NoInteraction]; reflexivity.
Qed.

(** ** Rendering again while idle *)

Lemma rerender_idle (s : Engine) :
  reachable s -> isRunning s = false -> rerender s = s.
Proof.
  intros Hr Hrun. destruct (reachable_timer_inv s Hr) as (_ & _ & Hi).
  rewrite Hrun in Hi. unfold_render.
  destruct s as [run chem lg hist lid ref ivs nh]; cbn in *. subst run ivs.
  destruct ref as [[|h]|]; reflexivity.
Qed.

(** ** The doubles of the source and the rationals of the model *)

(** The levels are independent, so agreement is checked level by level, by
    evaluating both sides at each of the 201 counts of halves. *)
Ltac by_halves :=
  let k := fresh "k" in
  let Hk := fresh "Hk" in
  intros k Hk;
  do 201 (destruct k as [|k]; [vm_compute; repeat split|]);
  exfalso; lia.

Lemma tracks_id : tracks (clampedQ (fun q => q)) (clampedF (fun x => x)).
Proof. by_halves. Qed.

Lemma tracks_add_5 : tracks (clampedQ (fun q => q + 5)) (clampedF (fun x => x + 5)%float).
Proof. by_halves. Qed.

Lemma tracks_add_8 : tracks (clampedQ (fun q => q + 8)) (clampedF (fun x => x + 8)%float).
Proof. by_halves. Qed.

Lemma tracks_add_12 : tracks (clampedQ (fun q => q + 12)) (clampedF (fun x => x + 12)%float).
Proof. by_halves. Qed.

Lemma tracks_add_15 : tracks (clampedQ (fun q => q + 15)) (clampedF (fun x => x + 15)%float).
Proof. by_halves. Qed.

Lemma tracks_add_20 : tracks (clampedQ (fun q => q + 20)) (clampedF (fun x => x + 20)%float).
Proof. by_halves. Qed.

Lemma tracks_sub_3 : tracks (clampedQ (fun q => q - 3)) (clampedF (fun x => x - 3)%float).
Proof. by_halves. Qed.

Lemma tracks_sub_5 : tracks (clampedQ (fun q => q - 5)) (clampedF (fun x => x - 5)%float).
Proof. by_halves. Qed.

Lemma tracks_sub_8 : tracks (clampedQ (fun q => q - 8)) (clampedF (fun x => x - 8)%float).
Proof. by_halves. Qed.

Lemma tracks_sub_10 : tracks (clampedQ (fun q => q - 10)) (clampedF (fun x => x - 10)%float).
Proof. by_halves. Qed.

Lemma tracks_drift_50 :
  tracks (clampedQ (fun q => if JS.gt q 50 then q - (1#2) else q + (1#2)))
         (clampedF (fun x => if PrimFloat.ltb 50 x then x - 0.5 else x + 0.5)%float).
Proof. by_halves. Qed.

Lemma tracks_drift_20 :
  tracks (clampedQ (fun q => if JS.gt q 20 then q - (1#2) else q + (1#2)))
         (clampedF (fun x => if PrimFloat.ltb 20 x then x - 0.5 else x + 0.5)%float).
Proof. by_halves. Qed.

(** The comparisons of the memo agree as well. *)
Lemma compare_halves (k : nat) :
  (k <= 200)%nat ->
  PrimFloat.ltb 60 (halfF k) = JS.gt (halfQ k) 60 /\
  PrimFloat.ltb (halfF k) 40 = JS.lt (halfQ k) 40 /\
  PrimFloat.ltb (halfF k) 30 = JS.lt (halfQ k) 30.
Proof. revert k. by_halves. Qed.

Lemma range_halves (k : nat) :
  (k <= 200)%nat -> level_in_rangeF (halfF k) = true.
Proof. revert k. by_halves. Qed.

Lemma exact_in_rangeF (cF : ChemistryF) (c : Chemistry) :
  exact cF c -> in_rangeF cF.
Proof.
  intros (k1 & k2 & k3 & B1 & B2 & B3 & _ & ->).
  repeat split; apply range_halves; assumption.
Qed.

Lemma clampedQ_compat (f : Q -> Q) :
  Proper (Qeq ==> Qeq) f -> Proper (Qeq ==> Qeq) (clampedQ f).
Proof.
  intros Hf x y E. unfold clampedQ, JS.Math_max, JS.Math_min.
  rewrite (Hf x y E). reflexivity.
Qed.

Lemma shift_compat (d : Q) : Proper (Qeq ==> Qeq) (fun q => q + d).
Proof. intros x y E. rewrite E. reflexivity. Qed.

Lemma drift_compat (b : Q) :
  Proper (Qeq ==> Qeq) (fun q => if JS.gt q b then q - (1#2) else q + (1#2)).
Proof.
  intros x y E. unfold JS.gt.
  assert (Hb : Qle_bool x b = Qle_bool y b) by (rewrite E; reflexivity).
  rewrite Hb. destruct (Qle_bool y b); cbn [negb]; rewrite E; reflexivity.
Qed.

(** Both updaters act on each level by itself, with level functions that
    agree on the counts of halves. *)
Lemma updater_levels (e : string) :
  exists (fd fo fc : Q -> Q) (gd go gc : float -> float),
    (tracks fd gd /\ tracks fo go /\ tracks fc gc) /\
    (Proper (Qeq ==> Qeq) fd /\ Proper (Qeq ==> Qeq) fo /\ Proper (Qeq ==> Qeq) fc) /\
    (forall c, updateBioData e c =
               mkChemistry (fd (Dopamine c)) (fo (Oxytocin c)) (fc (Cortisol c))) /\
    (forall cF, updateBioDataF e cF =
                mkChemistryF (gd (DopamineF cF)) (go (OxytocinF cF)) (gc (CortisolF cF))).
Proof.
  unfold updateBioData, updateBioDataF.
  destruct (String.eqb e "physical_touch");
    [|destruct (String.eqb e "argument");
      [|destruct (String.eqb e "deep_talk");
        [|destruct (String.eqb e "none")]]].
  - exists (clampedQ (fun q => q + 5)), (clampedQ (fun q => q + 15)),
      (clampedQ (fun q => q - 5)),
      (clampedF (fun x => x + 5)%float), (clampedF (fun x => x + 15)%float),
      (clampedF (fun x => x - 5)%float).
    split; [auto using tracks_add_5, tracks_add_15, tracks_sub_5|].
    split; [repeat split; apply clampedQ_compat, shift_compat|].
    split; intros []; reflexivity.
  - exists (clampedQ (fun q => q - 10)), (clampedQ (fun q => q - 8)),
      (clampedQ (fun q => q + 20)),
      (clampedF (fun x => x - 10)%float), (clampedF (fun x => x - 8)%float),
      (clampedF (fun x => x + 20)%float).
    split; [auto using tracks_sub_10, tracks_sub_8, tracks_add_20|].
    split; [repeat split; apply clampedQ_compat, shift_compat|].
    split; intros []; reflexivity.
  - exists (clampedQ (fun q => q + 8)), (clampedQ (fun q => q + 12)),
      (clampedQ (fun q => q - 3)),
      (clampedF (fun x => x + 8)%float), (clampedF (fun x => x + 12)%float),
      (clampedF (fun x => x - 3)%float).
    split; [auto using tracks_add_8, tracks_add_12, tracks_sub_3|].
    split; [repeat split; apply clampedQ_compat, shift_compat|].
    split; intros []; reflexivity.
  - exists (clampedQ (fun q => if JS.gt q 50 then q - (1#2) else q + (1#2))),
      (clampedQ (fun q => if JS.gt q 50 then q - (1#2) else q + (1#2))),
      (clampedQ (fun q => if JS.gt q 20 then q - (1#2) else q + (1#2))),
      (clampedF (fun x => if PrimFloat.ltb 50 x then x - 0.5 else x + 0.5)%float),
      (clampedF (fun x => if PrimFloat.ltb 50 x then x - 0.5 else x + 0.5)%float),
      (clampedF (fun x => if PrimFloat.ltb 20 x then x - 0.5 else x + 0.5)%float).
    split; [auto using tracks_drift_50, tracks_drift_20|].
    split; [repeat split; apply clampedQ_compat, drift_compat|].
    split; intros []; reflexivity.
  - exists (clampedQ (fun q => q)), (clampedQ (fun q => q)), (clampedQ (fun q => q)),
      (clampedF (fun x => x)), (clampedF (fun x => x)), (clampedF (fun x => x)).
    split; [auto using tracks_id|].
    split; [repeat split; apply clampedQ_compat; intros x y E; exact E|].
    split; intros []; reflexivity.
Qed.

Lemma tracks_step (fQ : Q -> Q) (fF : float -> float) (k : nat) (q : Q) :
  tracks fQ fF -> Proper (Qeq ==> Qeq) fQ ->
  (k <= 200)%nat -> q == halfQ k ->
  (halves (fQ (halfQ k)) <= 200)%nat /\
  fQ q == halfQ (halves (fQ (halfQ k))) /\
  fF (halfF k) = halfF (halves (fQ (halfQ k))).
Proof.
  intros Ht Hp Hk Eq. destruct (Ht k Hk) as (B & E & F).
  split; [apply Nat.leb_le; exact B|]. split; [|exact F].
  rewrite (Hp q (halfQ k) Eq). apply Qeq_bool_iff. exact E.
Qed.

(** One application of the updater: the doubles the source computes denote
    the rationals the model computes. *)
Theorem updateBioDataF_exact (e : string) (cF : ChemistryF) (c : Chemistry) :
  exact cF c -> exact (updateBioDataF e cF) (updateBioData e c).
Proof.
  intros (k1 & k2 & k3 & B1 & B2 & B3 & (Ed & Eo & Ec) & ->).
  destruct (updater_levels e)
    as (fd & fo & fc & gd & go & gc & (Td & To & Tc) & (Pd & Po & Pc) & HQ & HF).
  rewrite HQ, HF. cbn [DopamineF OxytocinF CortisolF] in *.
  cbn [Dopamine Oxytocin Cortisol] in Ed, Eo, Ec.
  destruct (tracks_step fd gd k1 _ Td Pd B1 Ed) as (Bd' & Ed' & Fd').
  destruct (tracks_step fo go k2 _ To Po B2 Eo) as (Bo' & Eo' & Fo').
  destruct (tracks_step fc gc k3 _ Tc Pc B3 Ec) as (Bc' & Ec' & Fc').
  exists (halves (fd (halfQ k1))), (halves (fo (halfQ k2))), (halves (fc (halfQ k3))).
  repeat split; try assumption.
  rewrite Fd', Fo', Fc'. reflexivity.
Qed.

Lemma exact_mount : exact (mkChemistryF 50 50 20) (chemistry mount).
Proof.
  exists 100%nat, 100%nat, 40%nat.
  repeat split; try lia; vm_compute; reflexivity.
Qed.

(** Every run of the component has its doubles, and they denote the levels
    of the model. *)
Theorem lockstep_exact (s : Engine) (cF : ChemistryF) :
  lockstep s cF -> exact cF (chemistry s).
Proof.
  induction 1 as [|s cF _ IH|s cF h r e t _ IH _ _ _ _].
  - exact exact_mount.
  - rewrite chemistry_toggle. exact IH.
  - rewrite chemistry_tick. apply updateBioDataF_exact. exact IH.
Qed.

Theorem reachable_lockstep (s : Engine) :
  reachable s -> exists cF, lockstep s cF.
Proof.
  induction 1 as [|s s' _ (cF & IH) Hstep].
  - eexists. constructor.
  - destruct Hstep.
    + exists cF. constructor; exact IH.
    + eexists. econstructor; eassumption.
Qed.

(** Every level the engine can hold is a count of halves between 0 and 100. *)
Theorem reachable_half_grid (s : Engine) :
  reachable s ->
  exists k1 k2 k3 : nat,
    (k1 <= 200)%nat /\ (k2 <= 200)%nat /\ (k3 <= 200)%nat /\
    chem_eq (chemistry s) (mkChemistry (halfQ k1) (halfQ k2) (halfQ k3)).
Proof.
  intros Hr. destruct (reachable_lockstep s Hr) as (cF & Hl).
  destruct (lockstep_exact s cF Hl) as (k1 & k2 & k3 & B1 & B2 & B3 & E & _).
  exists k1, k2, k3. repeat split; try assumption; apply E.
Qed.

(** The memo on doubles gives the list the model gives. *)
Theorem recommendationsF_exact (cF : ChemistryF) (c : Chemistry) :
  exact cF c -> recommendationsF cF = recommendations c.
Proof.
  intros (k1 & k2 & k3 & B1 & B2 & B3 & E & ->).
  rewrite (recommendations_compat _ _ E).
  unfold recommendationsF, recommendations.
  cbn [DopamineF OxytocinF CortisolF Dopamine Oxytocin Cortisol].
  destruct (compare_halves k1 B1) as (_ & _ & ->).
  destruct (compare_halves k2 B2) as (_ & -> & _).
  destruct (compare_halves k3 B3) as (-> & _ & _).
  reflexivity.
Qed.

(** * The properties of the specification *)

(** C1. In every state the engine reaches from the first render, by clicks
    and ticks with any drawn event, each of Dopamine, Oxytocin and Cortisol
    lies in [0, 100], and so does the state after any further tick.  This
    holds of the rationals of the model and of the doubles the source
    computes along the same run. *)
Theorem levels_stay_in_range (s : Engine) :
  reachable s ->
  (in_range (chemistry s) /\ forall e t, in_range (chemistry (tick e t s))) /\
  (exists cF, lockstep s cF) /\
  (forall cF, lockstep s cF ->
     in_rangeF cF /\ forall e, in_rangeF (updateBioDataF e cF)).
Proof.
  intros Hr. split; [split|split].
  - induction Hr as [|s s' _ IH Hstep].
    + unfold in_range; cbn. repeat split; discriminate.
    + destruct Hstep.
      * rewrite chemistry_toggle. exact IH.
      * rewrite chemistry_tick. apply updateBioData_in_range.
  - intros e t. rewrite chemistry_tick. apply updateBioData_in_range.
  - apply reachable_lockstep. exact Hr.
  - intros cF Hl. pose proof (lockstep_exact s cF Hl) as He. split.
    + exact (exact_in_rangeF _ _ He).
    + intros e. exact (exact_in_rangeF _ _ (updateBioDataF_exact e _ _ He)).
Qed.

Lemma levels_stay_in_range_witness :
  (in_range (chemistry after_argument) /\
   forall e t, in_range (chemistry (tick e t after_argument))) /\
  (exists cF, lockstep after_argument cF) /\
  (forall cF, lockstep after_argument cF ->
     in_rangeF cF /\ forall e, in_rangeF (updateBioDataF e cF)).
Proof. apply (levels_stay_in_range after_argument). exact reachable_after_argument. Defined.

(** C2. For every chemistry state the transition is the delta table followed
    by clamping to [0, 100]: physical touch adds 15 to oxytocin, takes 5 from
    cortisol and adds 5 to dopamine; argument adds 20 to cortisol, takes 10
    from dopamine and 8 from oxytocin; deep talk adds 12 to oxytocin, 8 to
    dopamine and takes 3 from cortisol.  From (50, 50, 20) one argument gives
    (40, 42, 40) and one physical touch gives (55, 65, 15), in the model and
    on doubles. *)
Theorem transition_table :
  (forall c,
     chem_eq (updateBioData "physical_touch" c)
       (mkChemistry (clamp (Dopamine c + 5)) (clamp (Oxytocin c + 15))
                    (clamp (Cortisol c - 5)))) /\
  (forall c,
     chem_eq (updateBioData "argument" c)
       (mkChemistry (clamp (Dopamine c - 10)) (clamp (Oxytocin c - 8))
                    (clamp (Cortisol c + 20)))) /\
  (forall c,
     chem_eq (updateBioData "deep_talk" c)
       (mkChemistry (clamp (Dopamine c + 8)) (clamp (Oxytocin c + 12))
                    (clamp (Cortisol c - 3)))) /\
  updateBioData "argument" (mkChemistry 50 50 20) = mkChemistry 40 42 40 /\
  updateBioData "physical_touch" (mkChemistry 50 50 20) = mkChemistry 55 65 15 /\
  updateBioDataF "argument" (mkChemistryF 50 50 20) = mkChemistryF 40 42 40 /\
  updateBioDataF "physical_touch" (mkChemistryF 50 50 20) = mkChemistryF 55 65 15.
Proof.
  split; [|split; [|split]].
  - intros c. exact (updateBioData_refines PhysicalTouch c).
  - intros c. exact (updateBioData_refines Argument c).
  - intros c. exact (updateBioData_refines DeepTalk c).
  - repeat split; vm_compute; reflexivity.
Qed.

(** C3. An argument applied to (0, 0, 0) gives (0, 0, 20): dopamine and
    oxytocin are clamped at 0, cortisol becomes 20 (in the model and on
    doubles). *)
Theorem argument_at_zero :
  updateBioData "argument" (mkChemistry 0 0 0) = mkChemistry 0 0 20 /\
  updateBioDataF "argument" (mkChemistryF 0 0 0) = mkChemistryF 0 0 20.
Proof. split; vm_compute; reflexivity. Qed.

(** C4. Twenty [none] transitions in a row from the baseline (50, 50, 20)
    end in (50, 50, 20), as a chain of transitions (on rationals and on
    doubles) and as twenty ticks of the running engine; the [none]
    transition moves each level by 0.5 towards its baseline (50, 50, 20):
    down when the level is strictly above the baseline, up otherwise. *)
Theorem twenty_none_ticks_from_baseline :
  chem_eq (Nat.iter 20 (updateBioData "none") baseline) baseline /\
  Nat.iter 20 (updateBioDataF "none") (mkChemistryF 50 50 20) = mkChemistryF 50 50 20 /\
  (forall t, chem_eq (chemistry (ticks 20 "none" t (toggle mount))) baseline) /\
  (forall c,
     chem_eq (updateBioData "none" c)
       (mkChemistry
          (clamp (if JS.gt (Dopamine c) 50 then Dopamine c - (1#2) else Dopamine c + (1#2)))
          (clamp (if JS.gt (Oxytocin c) 50 then Oxytocin c - (1#2) else Oxytocin c + (1#2)))
          (clamp (if JS.gt (Cortisol c) 20 then Cortisol c - (1#2) else Cortisol c + (1#2))))).
Proof.
  assert (H : chem_eq (Nat.iter 20 (updateBioData "none") baseline) baseline)
    by (vm_compute; repeat split; reflexivity).
  split; [exact H|]. split; [vm_compute; reflexivity|]. split.
  - intros t. rewrite chemistry_ticks. exact H.
  - intros c. exact (updateBioData_refines NoInteraction c).
Qed.

(** C5. After every tick the history holds at most 15 points, oldest first,
    and the log at most 5 entries, newest first: the history is the last 15
    of all points built so far with the new point at the end, the log is the
    first 5 of all entries built so far, newest first, with the new entry at
    the head.  A tick appends one point, dropping the oldest when 15 are
    held, and puts one entry in front, dropping the oldest when 5 are held. *)
Theorem buffers_bounded_and_ordered
    (es : list LogEntry) (ps : list HistoryPoint) (s : Engine) (e t : string) :
  chronicle es ps s ->
  let s' := tick e t s in
  ((List.length (history s') <= 15)%nat /\ (List.length (logs s') <= 5)%nat) /\
  history s' = JS.slice_last 15 (ps ++ [newPoint t s]) /\
  logs s' = JS.slice_to 5 (newLog e t s :: rev es) /\
  map id (logs s') = JS.slice_to 5 (rev (seq 0 (S (List.length es)))) /\
  ((List.length (history s) < 15)%nat /\ history s' = history s ++ [newPoint t s] \/
   List.length (history s) = 15%nat /\ history s' = tl (history s) ++ [newPoint t s]) /\
  ((List.length (logs s) < 5)%nat /\ logs s' = newLog e t s :: logs s \/
   List.length (logs s) = 5%nat /\ logs s' = newLog e t s :: removelast (logs s)).
Proof.
  intros Hc s'.
  destruct (chronicle_buffers es ps s Hc) as (Hh & Hl & Hn & Hi).
  destruct (reachable_buffer_lengths s (chronicle_reachable es ps s Hc)) as [Lh Ll].
  destruct (tick_fields e t s) as (_ & _ & E3 & E4 & _).
  fold s' in E3, E4. rewrite E3, E4.
  split; [split; [apply slice_last_length | apply slice_to_length]|].
  split; [rewrite Hh; apply slice_last_app|].
  assert (El : JS.slice_to 5 (newLog e t s :: logs s)
               = JS.slice_to 5 (newLog e t s :: rev es))
    by (rewrite Hl; apply slice_to_cons).
  split; [exact El|].
  split.
  { rewrite El. unfold JS.slice_to. rewrite <- firstn_map.
    cbn [map]. rewrite map_rev, Hi, seq_S, rev_app_distr. cbn [newLog id].
    rewrite Hn. reflexivity. }
  split.
  - destruct (Nat.eq_dec (List.length (history s)) 15) as [E|N].
    + right. split; [exact E|]. apply slice_last_snoc_full; [lia | exact E].
    + left. split; [lia|]. apply slice_last_snoc_room. lia.
  - destruct (Nat.eq_dec (List.length (logs s)) 5) as [E|N].
    + right. split; [exact E|]. apply slice_to_cons_full; [lia | exact E].
    + left. split; [lia|]. apply slice_to_cons_room. lia.
Qed.

Lemma buffers_bounded_and_ordered_witness :
  let s := toggle mount in
  let s' := tick "deep_talk" "12:00:03" s in
  ((List.length (history s') <= 15)%nat /\ (List.length (logs s') <= 5)%nat) /\
  history s' = JS.slice_last 15 ([] ++ [newPoint "12:00:03" s]) /\
  logs s' = JS.slice_to 5 (newLog "deep_talk" "12:00:03" s :: rev []) /\
  map id (logs s') = JS.slice_to 5 (rev (seq 0 1)) /\
  ((List.length (history s) < 15)%nat /\ history s' = history s ++ [newPoint "12:00:03" s] \/
   List.length (history s) = 15%nat /\ history s' = tl (history s) ++ [newPoint "12:00:03" s]) /\
  ((List.length (logs s) < 5)%nat /\ logs s' = newLog "deep_talk" "12:00:03" s :: logs s \/
   List.length (logs s) = 5%nat /\
   logs s' = newLog "deep_talk" "12:00:03" s :: removelast (logs s)).
Proof.
  exact (buffers_bounded_and_ordered [] [] (toggle mount) "deep_talk" "12:00:03"
           chronicle_toggle_mount).
Defined.

(** C6. The recommendation list is a function of the chemistry state alone
    (states with equal levels get the same list), it is never empty, and it
    holds, in this order, the stress alert iff cortisol > 60, the bonding
    deficit iff oxytocin < 40 and the low reward iff dopamine < 30; when
    cortisol <= 60, oxytocin >= 40 and dopamine >= 30 the list is exactly
    the optimal entry.  The memo evaluated on the doubles of the source
    gives the same list. *)
Theorem recommendations_complete (c : Chemistry) :
  (forall c', chem_eq c c' -> recommendations c = recommendations c') /\
  (forall cF, exact cF c -> recommendationsF cF = recommendations c) /\
  recommendations c <> [] /\
  (exists tail : list Recommendation,
     recommendations c =
       (if JS.gt (Cortisol c) 60 then [stress_alert] else []) ++
       (if JS.lt (Oxytocin c) 40 then [bonding_deficit] else []) ++
       (if JS.lt (Dopamine c) 30 then [low_reward] else []) ++ tail /\
     (tail = [] \/ tail = [optimal_state])) /\
  (In stress_alert (recommendations c) <-> 60 < Cortisol c) /\
  (In bonding_deficit (recommendations c) <-> Oxytocin c < 40) /\
  (In low_reward (recommendations c) <-> Dopamine c < 30) /\
  (Cortisol c <= 60 /\ 40 <= Oxytocin c /\ 30 <= Dopamine c <->
   recommendations c = [optimal_state]).
Proof.
  split; [intros c'; apply recommendations_compat|].
  split; [intros cF; apply recommendationsF_exact|].
  rewrite recommendations_cases.
  destruct (gt_spec (Cortisol c) 60) as [Hc|Hc];
    destruct (lt_spec (Oxytocin c) 40) as [Ho|Ho];
    destruct (lt_spec (Dopamine c) 30) as [Hd|Hd];
    cbn [orb List.app];
    (split; [discriminate|]);
    (split; [eexists; split; [reflexivity | auto]|]);
    repeat split; intros; cbn [In] in *; distinct_cards; auto;
    try (exfalso; eapply Qlt_not_le; eassumption);
    try discriminate.
Qed.

(** C7. The log entry a tick creates is the head of the log; it carries the
    chemistry state as it was before the tick's transition, together with
    the label of the interaction kind drawn for that tick (and the value of
    the id counter and the clock reading of that tick). *)
Theorem log_entry_keeps_previous_state (s : Engine) (e t : string) :
  hd_error (logs (tick e t s)) =
    Some {| id := logIdRef s;
            event := JS.toUpperCase (JS.replace "_" " " e);
            data := chemistry s;
            timestamp := t |} /\
  (forall k, e = kind_name k ->
     JS.toUpperCase (JS.replace "_" " " e) = kind_label k) /\
  (forall k k', kind_label k = kind_label k' -> k = k').
Proof.
  destruct (tick_fields e t s) as (_ & _ & E3 & _). rewrite E3.
  split; [reflexivity|]. split.
  - intros k ->. destruct k; reflexivity.
  - intros [] []; intros H; try reflexivity; discriminate H.
Qed.

(** C8, as the code has it.  The history point a tick appends is the last
    point of the history; it carries the chemistry state as it was before
    the tick's transition, the same snapshot as the log entry of that tick,
    and the clock reading of that tick. *)
Theorem history_point_keeps_previous_state (s : Engine) (e t : string) :
  exists (older : list HistoryPoint) (p : HistoryPoint) (entry : LogEntry),
    history (tick e t s) = older ++ [p] /\
    point_chemistry p = chemistry s /\
    time p = t /\
    hd_error (logs (tick e t s)) = Some entry /\
    data entry = point_chemistry p.
Proof.
  destruct (tick_fields e t s) as (_ & _ & E3 & E4 & _).
  exists (skipn (S (List.length (history s)) - 15) (history s)),
    (newPoint t s), (newLog e t s).
  rewrite E3, E4. split; [apply slice_last_snoc; lia|].
  unfold newPoint. rewrite point_chemistry_spread. repeat split.
Qed.

(** C8 fails as stated: after the first tick of a run, an argument, the
    only history point holds (50, 50, 20) while the new state is
    (40, 42, 40). *)
Lemma history_point_is_not_new_state :
  let s := toggle mount in
  let s' := tick "argument" "12:00:01" s in
  history s' = history s ++ [spread_time (mkChemistry 50 50 20) "12:00:01"] /\
  chemistry s' = mkChemistry 40 42 40 /\
  ~ chem_eq (point_chemistry (spread_time (mkChemistry 50 50 20) "12:00:01"))
            (chemistry s').
Proof.
  cbv zeta. split; [reflexivity|]. split; [reflexivity|].
  intros (H & _). discriminate H.
Qed.

(** C9. Stopping an engine that is idle changes nothing of its state
    (chemistry, history, log, running flag, timers), and neither does
    running the effect again while idle; the history and the log read
    before any tick are empty lists. *)
Theorem stop_when_idle_is_noop (s s0 : Engine) :
  reachable s -> isRunning s = false ->
  chronicle [] [] s0 ->
  (stop s = s /\ rerender s = s) /\
  (history s0 = [] /\ logs s0 = []).
Proof.
  intros Hr Hrun Hc. split.
  - split; [|apply rerender_idle; assumption].
    unfold stop, setIsRunning. rewrite Hrun. reflexivity.
  - destruct (chronicle_buffers [] [] s0 Hc) as (Hh & Hl & _).
    rewrite Hh, Hl. split; reflexivity.
Qed.

Lemma stop_when_idle_is_noop_witness :
  (stop (toggle after_argument) = toggle after_argument /\
   rerender (toggle after_argument) = toggle after_argument) /\
  (history (toggle mount) = [] /\ logs (toggle mount) = []).
Proof.
  apply (stop_when_idle_is_noop (toggle after_argument) (toggle mount)).
  - exact reachable_stopped_after_argument.
  - reflexivity.
  - exact chronicle_toggle_mount.
Defined.

(** C10. Before any click or tick the engine holds the chemistry state
    (50, 50, 20), is not running, has an empty log and an empty history, and
    its next log id is 0; no interval is installed. *)
Theorem initial_state :
  chemistry mount = {| Dopamine := 50; Oxytocin := 50; Cortisol := 20 |} /\
  isRunning mount = false /\
  logs mount = [] /\
  history mount = [] /\
  logIdRef mount = 0%nat /\
  intervalRef mount = None /\
  intervals mount = [] /\
  mount = initial.
Proof. repeat split. Qed.

(** * Further properties of the component *)

(** ** The interval timers *)

(** X1. In every state of a mounted component the running flag and the
    installed intervals agree: while running exactly one interval is
    installed, the one [intervalRef] holds; while idle none is.  Two
    intervals are never installed at once. *)
Theorem one_interval_while_running (s : Engine) :
  reachable s ->
  (isRunning s = true <->
   exists h, intervalRef s = Some h /\ intervals s = [h]) /\
  (isRunning s = false <-> intervals s = []) /\
  (List.length (intervals s) <= 1)%nat.
Proof.
  intros Hr. destruct (reachable_timer_inv s Hr) as (_ & _ & Hi).
  destruct (isRunning s).
  - destruct Hi as (h & Eh & Ei). rewrite Ei. split; [|split].
    + split; [intros _; exists h; split; [exact Eh | reflexivity] | reflexivity].
    + split; discriminate.
    + cbn. lia.
  - rewrite Hi. split; [|split].
    + split; [discriminate | intros (h & _ & E); discriminate E].
    + split; reflexivity.
    + cbn. lia.
Qed.

Lemma one_interval_while_running_witness :
  (isRunning after_argument = true <->
   exists h, intervalRef after_argument = Some h /\ intervals after_argument = [h]) /\
  (isRunning after_argument = false <-> intervals after_argument = []) /\
  (List.length (intervals after_argument) <= 1)%nat.
Proof.
  exact (one_interval_while_running after_argument reachable_after_argument).
Defined.

(** X2. After the button stops a running component no interval is left, so
    nothing but another click can change the state: no tick fires after a
    stop. *)
Theorem no_tick_after_stop (s : Engine) :
  reachable s -> isRunning s = true ->
  isRunning (toggle s) = false /\
  intervals (toggle s) = [] /\
  forall s', step (toggle s) s' -> s' = toggle (toggle s).
Proof.
  intros Hr Hrun.
  assert (Hr' : reachable (toggle s)) by (eapply reach_step; [exact Hr | constructor]).
  assert (Hidle : isRunning (toggle s) = false).
  { destruct (setIsRunning_fields (negb (isRunning s)) s) as (E & _).
    unfold toggle. rewrite E, Hrun. reflexivity. }
  destruct (reachable_timer_inv _ Hr') as (_ & _ & Hi). rewrite Hidle in Hi.
  repeat split; try assumption.
  intros s' Hstep. inversion Hstep as [s0|s0 h r e t Hin _ _ _]; subst.
  - reflexivity.
  - rewrite Hi in Hin. destruct Hin.
Qed.

Lemma no_tick_after_stop_witness :
  isRunning (toggle after_argument) = false /\
  intervals (toggle after_argument) = [] /\
  forall s', step (toggle after_argument) s' -> s' = toggle (toggle after_argument).
Proof.
  apply (no_tick_after_stop after_argument).
  - exact reachable_after_argument.
  - reflexivity.
Defined.

(** X3. Every tick replaces the interval: since [chemistry] is a dependency
    of the effect, the interval that fired is cleared and a new one with a
    fresh handle is installed, so the period starts again at each tick. *)
Theorem tick_installs_fresh_interval (s : Engine) (h : nat) (e t : string) :
  reachable s -> In h (intervals s) ->
  intervals (tick e t s) = [nextHandle s] /\
  intervalRef (tick e t s) = Some (nextHandle s) /\
  ~ In h (intervals (tick e t s)) /\
  nextHandle (tick e t s) = S (nextHandle s).
Proof.
  intros Hr Hin.
  pose proof (installed_running s h Hr Hin) as Hrun.
  destruct (reachable_timer_inv s Hr) as (Hn & Href & Hi).
  rewrite Hrun in Hi. destruct Hi as (h' & Eh & Ei).
  rewrite Eh in Href. rewrite Ei in Hin. destruct Hin as [<-|[]].
  unfold_render.
  destruct s as [run chem lg hist lid ref ivs nh]; cbn in *. subst run ref ivs.
  destruct h' as [|h']; [lia|].
  cbn -[updateBioData JS.slice_to JS.slice_last newLog newPoint].
  rewrite Nat.eqb_refl.
  cbn -[updateBioData JS.slice_to JS.slice_last newLog newPoint].
  repeat split. intros [E|[]]. lia.
Qed.

Lemma tick_installs_fresh_interval_witness :
  intervals (tick "none" "12:00:03" after_argument) = [nextHandle after_argument] /\
  intervalRef (tick "none" "12:00:03" after_argument) = Some (nextHandle after_argument) /\
  ~ In 2%nat (intervals (tick "none" "12:00:03" after_argument)) /\
  nextHandle (tick "none" "12:00:03" after_argument) = S (nextHandle after_argument).
Proof.
  apply (tick_installs_fresh_interval after_argument 2 "none" "12:00:03").
  - exact reachable_after_argument.
  - left; reflexivity.
Defined.

(** X4. The cleanup the effect returns, which also runs when the component
    is unmounted, leaves no interval installed, whatever the component was
    doing. *)
Theorem cleanup_leaves_no_interval (s : Engine) :
  reachable s -> intervals (cleanup s) = [] /\ chemistry (cleanup s) = chemistry s.
Proof.
  intros Hr. destruct (reachable_timer_inv s Hr) as (_ & Href & Hi).
  unfold cleanup, clearInterval.
  destruct s as [run chem lg hist lid ref ivs nh]; cbn in *.
  destruct run.
  - destruct Hi as (h & -> & ->). destruct h as [|h]; [lia|].
    cbn. rewrite Nat.eqb_refl. split; reflexivity.
  - subst ivs. destruct ref as [[|h]|]; split; reflexivity.
Qed.

Lemma cleanup_leaves_no_interval_witness :
  intervals (cleanup after_argument) = [] /\
  chemistry (cleanup after_argument) = chemistry after_argument.
Proof.
  exact (cleanup_leaves_no_interval after_argument reachable_after_argument).
Defined.

(** X5. A click never touches the data: chemistry, log, history and the id
    counter are the same after it, and only the running flag flips; so
    stopping and starting again resumes from the same levels and buffers. *)
Theorem click_keeps_data (s : Engine) :
  (isRunning (toggle s) = negb (isRunning s) /\
   chemistry (toggle s) = chemistry s /\
   logs (toggle s) = logs s /\
   history (toggle s) = history s /\
   logIdRef (toggle s) = logIdRef s) /\
  (isRunning (toggle (toggle s)) = isRunning s /\
   chemistry (toggle (toggle s)) = chemistry s /\
   logs (toggle (toggle s)) = logs s /\
   history (toggle (toggle s)) = history s /\
   logIdRef (toggle (toggle s)) = logIdRef s).
Proof.
  assert (H : forall x, isRunning (toggle x) = negb (isRunning x) /\
                        chemistry (toggle x) = chemistry x /\
                        logs (toggle x) = logs x /\
                        history (toggle x) = history x /\
                        logIdRef (toggle x) = logIdRef x)
    by (intros x; apply setIsRunning_fields).
  split; [apply H|].
  destruct (H s) as (A1 & A2 & A3 & A4 & A5).
  destruct (H (toggle s)) as (B1 & B2 & B3 & B4 & B5).
  rewrite B1, B2, B3, B4, B5, A1, A2, A3, A4, A5, negb_involutive.
  repeat split.
Qed.

(** ** The draw *)




(** ** The buffers and the snapshots they hold *)

Lemma reachable_in_range (s : Engine) : reachable s -> in_range (chemistry s).
Proof.
  induction 1 as [|s s' _ IH Hstep].
  - unfold in_range; cbn. repeat split; discriminate.
  - destruct Hstep.
    + rewrite chemistry_toggle. exact IH.
    + rewrite chemistry_tick. apply updateBioData_in_range.
Qed.

Lemma draw_In (random : Q) (e : string) : draw random = Some e -> In e events.
Proof. unfold draw. apply nth_error_In. Qed.

Lemma snoc_case {A} (l : list A) : l = [] \/ exists l' x, l = l' ++ [x].
Proof.
  induction l as [|x l' _] using rev_ind; [left; reflexivity|].
  right. exists l', x. reflexivity.
Qed.

Lemma snoc_eq_split {A} (l l1 l2 : list A) (x p q : A) :
  l ++ [x] = l1 ++ p :: q :: l2 ->
  (l2 = [] /\ q = x /\ l = l1 ++ [p]) \/
  (exists l2', l2 = l2' ++ [x] /\ l = l1 ++ p :: q :: l2').
Proof.
  intros E. destruct (snoc_case l2) as [->|(l2' & y & ->)].
  - left. change (l1 ++ [p; q]) with (l1 ++ [p] ++ [q]) in E.
    rewrite app_assoc in E. apply app_inj_tail in E. destruct E as [-> ->].
    repeat split.
  - right. exists l2'.
    change (l1 ++ p :: q :: l2' ++ [y]) with (l1 ++ (p :: q :: l2') ++ [y]) in E.
    rewrite app_assoc in E. apply app_inj_tail in E. destruct E as [-> ->].
    split; reflexivity.
Qed.

(** The entries and the points of a run are built from the same snapshots,
    each snapshot follows the one before, and the current levels follow the
    last one. *)
Lemma chronicle_links es ps s :
  chronicle es ps s ->
  chained ps /\
  (forall older p, ps = older ++ [p] ->
     follows (point_chemistry p) (chemistry s)) /\
  map data es = map point_chemistry ps /\
  map timestamp es = map time ps /\
  Forall (fun p => in_range (point_chemistry p)) ps.
Proof.
  induction 1 as [|es ps s Hc IH|es ps s h r e t Hc IH Hin H0 H1 Hd].
  - repeat split; try constructor.
    + intros l1 p q l2 E. destruct l1; discriminate E.
    + intros older p E. destruct older; discriminate E.
  - rewrite chemistry_toggle. exact IH.
  - destruct IH as (Hch & Hlast & Hdata & Htime & Hrange).
    rewrite chemistry_tick. repeat split.
    + intros l1 p q l2 E. apply snoc_eq_split in E.
      destruct E as [(-> & -> & ->)|(l2' & -> & ->)].
      * unfold newPoint. rewrite point_chemistry_spread.
        apply (Hlast l1 p). reflexivity.
      * apply (Hch l1 p q l2'). reflexivity.
    + intros older p E. apply app_inj_tail in E. destruct E as [_ <-].
      unfold newPoint. rewrite point_chemistry_spread.
      exists e. split; [exact (draw_In r e Hd) | reflexivity].
    + rewrite !map_app, Hdata. cbn. unfold newPoint.
      rewrite point_chemistry_spread. reflexivity.
    + rewrite !map_app, Htime. reflexivity.
    + apply Forall_app. split; [exact Hrange|]. constructor; [|constructor].
      unfold newPoint. rewrite point_chemistry_spread.
      apply reachable_in_range. exact (chronicle_reachable _ _ _ Hc).
Qed.

Lemma chronicle_lengths es ps s :
  chronicle es ps s -> List.length es = List.length ps.
Proof.
  intros Hc. destruct (chronicle_links es ps s Hc) as (_ & _ & E & _).
  rewrite <- (length_map data es), E. apply length_map.
Qed.

(** X7. The id counter counts the ticks, and the buffers fill up before
    they roll: after n ticks the history holds min(n, 15) points and the log
    min(n, 5) entries. *)
Theorem buffers_fill_then_roll es ps s :
  chronicle es ps s ->
  logIdRef s = List.length es /\
  List.length es = List.length ps /\
  List.length (history s) = Nat.min 15 (logIdRef s) /\
  List.length (logs s) = Nat.min 5 (logIdRef s).
Proof.
  intros Hc. destruct (chronicle_buffers es ps s Hc) as (Hh & Hl & Hn & _).
  pose proof (chronicle_lengths es ps s Hc) as El.
  rewrite Hh, Hl, Hn. unfold JS.slice_last, JS.slice_to.
  rewrite length_skipn, length_firstn, length_rev.
  repeat split; lia.
Qed.

Lemma chronicle_after_argument :
  chronicle ([] ++ [newLog "argument" "12:00:01" (toggle mount)])
            ([] ++ [newPoint "12:00:01" (toggle mount)]) after_argument.
Proof.
  unfold after_argument.
  apply chron_interval with (h := 1%nat) (random := 1#5).
  - exact chronicle_toggle_mount.
  - left; reflexivity.
  - discriminate.
  - reflexivity.
  - reflexivity.
Qed.

Lemma buffers_fill_then_roll_witness :
  let es := [newLog "argument" "12:00:01" (toggle mount)] in
  let ps := [newPoint "12:00:01" (toggle mount)] in
  logIdRef after_argument = List.length es /\
  List.length es = List.length ps /\
  List.length (history after_argument) = Nat.min 15 (logIdRef after_argument) /\
  List.length (logs after_argument) = Nat.min 5 (logIdRef after_argument).
Proof. exact (buffers_fill_then_roll _ _ _ chronicle_after_argument). Defined.

Lemma NoDup_firstn {A} (n : nat) (l : list A) : NoDup l -> NoDup (firstn n l).
Proof.
  intros H. rewrite <- (firstn_skipn n l) in H.
  exact (NoDup_app_remove_r _ _ H).
Qed.

Lemma reachable_log_ids (s : Engine) :
  reachable s -> map id (logs s) = JS.slice_to 5 (rev (seq 0 (logIdRef s))).
Proof.
  intros Hr. destruct (reachable_chronicle s Hr) as (es & ps & Hc).
  destruct (chronicle_buffers es ps s Hc) as (_ & Hl & Hn & Hi).
  rewrite Hl, Hn. unfold JS.slice_to.
  rewrite <- firstn_map, map_rev, Hi. reflexivity.
Qed.

(** X8. The ids of the log entries are the five latest tick numbers,
    counting down from the id counter minus one; in particular the React
    keys of the rows of the event stream are pairwise distinct. *)
Theorem log_keys_distinct (s : Engine) :
  reachable s ->
  map id (logs s) = JS.slice_to 5 (rev (seq 0 (logIdRef s))) /\
  NoDup (map id (logs s)) /\
  (forall rows, event_stream (logs s) = Some rows -> NoDup (map row_key rows)) /\
  (forall entry rest, logs s = entry :: rest -> S (id entry) = logIdRef s).
Proof.
  intros Hr. pose proof (reachable_log_ids s Hr) as E.
  assert (Hnd : NoDup (map id (logs s))).
  { rewrite E. apply NoDup_firstn, NoDup_rev, seq_NoDup. }
  split; [exact E|]. split; [exact Hnd|]. split.
  - intros rows Hrows. unfold event_stream in Hrows.
    destruct (List.length (logs s) =? 0)%nat; [discriminate|].
    injection Hrows as <-. rewrite map_map. exact Hnd.
  - intros entry rest El. rewrite El in E. cbn [map] in E.
    destruct (logIdRef s) as [|n]; [discriminate E|].
    rewrite seq_S, rev_app_distr in E. cbn in E.
    injection E as E _. rewrite E. reflexivity.
Qed.

Lemma log_keys_distinct_witness :
  map id (logs after_argument) = JS.slice_to 5 (rev (seq 0 (logIdRef after_argument))) /\
  NoDup (map id (logs after_argument)) /\
  (forall rows, event_stream (logs after_argument) = Some rows ->
     NoDup (map row_key rows)) /\
  (forall entry rest, logs after_argument = entry :: rest ->
     S (id entry) = logIdRef after_argument).
Proof. exact (log_keys_distinct after_argument reachable_after_argument). Defined.

Lemma firstn_5_rev_last_15 {A} (l : list A) :
  firstn 5 (rev (JS.slice_last 15 l)) = firstn 5 (rev l).
Proof.
  unfold JS.slice_last.
  destruct (Nat.le_gt_cases (List.length l) 15) as [H|H].
  - replace (List.length l - 15)%nat with 0%nat by lia. reflexivity.
  - rewrite <- (firstn_rev 15 l), firstn_firstn. reflexivity.
Qed.

(** X9. The log and the history tell the same story: the snapshots and the
    clock readings of the log entries are those of the latest five history
    points, newest first. *)
Theorem log_mirrors_history (s : Engine) :
  reachable s ->
  map data (logs s) = JS.slice_to 5 (rev (map point_chemistry (history s))) /\
  map timestamp (logs s) = JS.slice_to 5 (rev (map time (history s))).
Proof.
  intros Hr. destruct (reachable_chronicle s Hr) as (es & ps & Hc).
  destruct (chronicle_buffers es ps s Hc) as (Hh & Hl & _).
  destruct (chronicle_links es ps s Hc) as (_ & _ & Hd & Ht & _).
  rewrite Hh, Hl. unfold JS.slice_to at 1 3.
  rewrite <- !firstn_map, !map_rev, Hd, Ht.
  unfold JS.slice_to. rewrite <- !map_rev, !firstn_map, !firstn_5_rev_last_15.
  split; reflexivity.
Qed.

Lemma log_mirrors_history_witness :
  map data (logs after_argument) =
    JS.slice_to 5 (rev (map point_chemistry (history after_argument))) /\
  map timestamp (logs after_argument) =
    JS.slice_to 5 (rev (map time (history after_argument))).
Proof. exact (log_mirrors_history after_argument reachable_after_argument). Defined.

(** X10. The chart lags the levels by one tick.  In the history every point
    is followed by its successor: the successor holds what one tick with a
    drawn event made of it.  The current levels in turn follow the last
    point, so they are one transition ahead of everything the chart shows. *)
Theorem history_is_a_chain (s : Engine) :
  reachable s ->
  chained (history s) /\
  (forall older p, history s = older ++ [p] ->
     follows (point_chemistry p) (chemistry s)).
Proof.
  intros Hr. destruct (reachable_chronicle s Hr) as (es & ps & Hc).
  destruct (chronicle_buffers es ps s Hc) as (Hh & _).
  destruct (chronicle_links es ps s Hc) as (Hch & Hlast & _).
  unfold JS.slice_last in Hh.
  pose proof (firstn_skipn (List.length ps - 15) ps) as Eps.
  rewrite <- Hh in Eps.
  remember (firstn (List.length ps - 15) ps) as pre eqn:Epre. clear Epre.
  split.
  - intros l1 p q l2 E. rewrite E in Eps.
    apply (Hch (pre ++ l1) p q l2).
    rewrite <- app_assoc. symmetry. exact Eps.
  - intros older p E. rewrite E in Eps.
    apply (Hlast (pre ++ older) p).
    rewrite <- app_assoc. symmetry. exact Eps.
Qed.

Lemma history_is_a_chain_witness :
  chained (history after_argument) /\
  (forall older p, history after_argument = older ++ [p] ->
     follows (point_chemistry p) (chemistry after_argument)).
Proof. exact (history_is_a_chain after_argument reachable_after_argument). Defined.

Lemma Forall_skipn {A} (P : A -> Prop) (n : nat) (l : list A) :
  Forall P l -> Forall P (skipn n l).
Proof.
  intros H. rewrite <- (firstn_skipn n l) in H.
  apply Forall_app in H. apply H.
Qed.

Lemma Forall_firstn {A} (P : A -> Prop) (n : nat) (l : list A) :
  Forall P l -> Forall P (firstn n l).
Proof.
  intros H. rewrite <- (firstn_skipn n l) in H.
  apply Forall_app in H. apply H.
Qed.

(** X11. Every snapshot the buffers hold is within bounds: each point of
    the history, which the chart draws on a y-axis from 0 to 100, and the
    data of each log entry have all three levels in [0, 100]. *)
Theorem stored_snapshots_in_range (s : Engine) :
  reachable s ->
  Forall (fun p => in_range (point_chemistry p)) (history s) /\
  Forall (fun entry => in_range (data entry)) (logs s).
Proof.
  intros Hr. destruct (reachable_chronicle s Hr) as (es & ps & Hc).
  destruct (chronicle_buffers es ps s Hc) as (Hh & Hl & _).
  destruct (chronicle_links es ps s Hc) as (_ & _ & Hd & _ & Hrange).
  rewrite Hh, Hl. split.
  - apply Forall_skipn. exact Hrange.
  - apply Forall_firstn, Forall_rev.
    apply Forall_map. rewrite Hd.
    apply Forall_map in Hrange. exact Hrange.
Qed.

Lemma stored_snapshots_in_range_witness :
  Forall (fun p => in_range (point_chemistry p)) (history after_argument) /\
  Forall (fun entry => in_range (data entry)) (logs after_argument).
Proof. exact (stored_snapshots_in_range after_argument reachable_after_argument). Defined.

(** ** How far and where a transition moves the levels *)







Lemma chem_eq_refl (c : Chemistry) : chem_eq c c.
Proof. repeat split; reflexivity. Qed.













Lemma in_range_baseline : in_range baseline.
Proof. unfold in_range; cbn. repeat split; discriminate. Qed.





(** ** What the view shows *)

Lemma Math_round_near (x : Q) :
  x - (1#2) < inject_Z (Math_round x) /\ inject_Z (Math_round x) <= x + (1#2).
Proof.
  unfold Math_round.
  pose proof (Qfloor_le (x + (1#2))) as Hle.
  pose proof (Qlt_floor (x + (1#2))) as Hlt.
  rewrite inject_Z_plus in Hlt. change (inject_Z 1) with 1 in Hlt.
  split; lra.
Qed.

Lemma Math_round_range (x : Q) :
  0 <= x <= 100 -> (0 <= Math_round x <= 100)%Z.
Proof.
  intros [H0 H1]. destruct (Math_round_near x) as [Hlo Hhi]. split.
  - unfold Math_round. change 0%Z with (Qfloor 0). apply Qfloor_resp_le. lra.
  - apply Z.lt_succ_r. rewrite Zlt_Qlt.
    change (inject_Z (Z.succ 100)) with 101. lra.
Qed.

Lemma Math_round_half (k : Z) : Math_round (k # 2) = ((k + 1) / 2)%Z.
Proof.
  unfold Math_round, Qfloor, Qplus. cbn [Qnum Qden].
  change (Z.pos (2 * 2)) with (2 * 2)%Z.
  replace (k * 2 + 1 * 2)%Z with ((k + 1) * 2)%Z by ring.
  apply Z.div_mul_cancel_r; discriminate.
Qed.

(** X15. The status bars of a state within bounds: there are three, for
    dopamine, oxytocin and cortisol in this order; each is as wide as its
    level, between 0 and 100 percent, and shows a whole number between 0 and
    100 that is the level rounded to the nearest integer, less than 0.5
    below it and at most 0.5 above. *)
Theorem status_bars_show_levels (c : Chemistry) :
  in_range c ->
  map bar_key (metric_bars c) = [KDopamine; KOxytocin; KCortisol] /\
  map bar_width (metric_bars c) = [Dopamine c; Oxytocin c; Cortisol c] /\
  Forall (fun b =>
            0 <= bar_width b <= 100 /\
            (0 <= bar_percent b <= 100)%Z /\
            bar_width b - (1#2) < inject_Z (bar_percent b) /\
            inject_Z (bar_percent b) <= bar_width b + (1#2))
         (metric_bars c).
Proof.
  intros (Hd & Ho & Hc). split; [reflexivity|]. split; [reflexivity|].
  unfold metric_bars. cbn [map level].
  repeat constructor; cbn [bar_width bar_percent];
    try (apply Math_round_range; assumption);
    try apply Math_round_near; try apply Hd; try apply Ho; try apply Hc.
Qed.

Lemma status_bars_show_levels_witness :
  map bar_key (metric_bars baseline) = [KDopamine; KOxytocin; KCortisol] /\
  map bar_width (metric_bars baseline) =
    [Dopamine baseline; Oxytocin baseline; Cortisol baseline] /\
  Forall (fun b =>
            0 <= bar_width b <= 100 /\
            (0 <= bar_percent b <= 100)%Z /\
            bar_width b - (1#2) < inject_Z (bar_percent b) /\
            inject_Z (bar_percent b) <= bar_width b + (1#2))
         (metric_bars baseline).
Proof. exact (status_bars_show_levels baseline in_range_baseline). Defined.

(** X16. Every level the engine reaches is a whole number of halves between
    0 and 100, and a level of k halves is shown as (k + 1) div 2 percent: a
    level ending in .5 is shown rounded up. *)
Theorem levels_are_halves_shown_rounded_up (s : Engine) :
  reachable s ->
  exists k1 k2 k3 : nat,
    ((k1 <= 200)%nat /\ (k2 <= 200)%nat /\ (k3 <= 200)%nat) /\
    chem_eq (chemistry s) (mkChemistry (halfQ k1) (halfQ k2) (halfQ k3)) /\
    (Math_round (halfQ k1) = (Z.of_nat k1 + 1) / 2)%Z /\
    (Math_round (halfQ k2) = (Z.of_nat k2 + 1) / 2)%Z /\
    (Math_round (halfQ k3) = (Z.of_nat k3 + 1) / 2)%Z.
Proof.
  intros Hr. destruct (reachable_lockstep s Hr) as (cF & Hl).
  destruct (lockstep_exact s cF Hl) as (k1 & k2 & k3 & B1 & B2 & B3 & E & _).
  exists k1, k2, k3. repeat split; try assumption; try apply E;
    apply Math_round_half.
Qed.

Lemma levels_are_halves_shown_rounded_up_witness :
  exists k1 k2 k3 : nat,
    ((k1 <= 200)%nat /\ (k2 <= 200)%nat /\ (k3 <= 200)%nat) /\
    chem_eq (chemistry after_argument) (mkChemistry (halfQ k1) (halfQ k2) (halfQ k3)) /\
    (Math_round (halfQ k1) = (Z.of_nat k1 + 1) / 2)%Z /\
    (Math_round (halfQ k2) = (Z.of_nat k2 + 1) / 2)%Z /\
    (Math_round (halfQ k3) = (Z.of_nat k3 + 1) / 2)%Z.
Proof.
  exact (levels_are_halves_shown_rounded_up after_argument reachable_after_argument).
Defined.

(** X17. The colour of a number follows its level only for cortisol: the
    cortisol number is red exactly when the stress alert is among the
    recommendations, that is when cortisol is above 60, and grey otherwise;
    the dopamine number is always yellow and the oxytocin number always
    purple, also when the low reward or the bonding deficit is shown. *)
Theorem cortisol_red_iff_stress_alert (c : Chemistry) :
  (getChemistryColor (level c KCortisol) KCortisol = "text-red-500" <->
   In stress_alert (recommendations c)) /\
  (getChemistryColor (level c KCortisol) KCortisol = "text-red-500" <->
   60 < Cortisol c) /\
  (getChemistryColor (level c KCortisol) KCortisol = "text-slate-300" <->
   Cortisol c <= 60) /\
  (forall val, getChemistryColor val KDopamine = "text-yellow-500") /\
  (forall val, getChemistryColor val KOxytocin = "text-purple-500").
Proof.
  rewrite recommendations_cases.
  unfold getChemistryColor. cbn [level key_eqb andb].
  destruct (gt_spec (Cortisol c) 60) as [Hc|Hc];
    destruct (JS.lt (Oxytocin c) 40), (JS.lt (Dopamine c) 30);
    cbn [orb List.app In];
    repeat split; intros; distinct_cards; auto; try discriminate;
    try (exfalso; eapply Qlt_not_le; eassumption).
Qed.

Lemma reachable_log_length (s : Engine) :
  reachable s -> List.length (logs s) = Nat.min 5 (logIdRef s).
Proof.
  intros Hr. destruct (reachable_chronicle s Hr) as (es & ps & Hc).
  destruct (chronicle_buffers es ps s Hc) as (_ & Hl & Hn & _).
  rewrite Hl, Hn. unfold JS.slice_to. rewrite length_firstn, length_rev. reflexivity.
Qed.

Lemma reachable_log_data_in_range (s : Engine) :
  reachable s -> Forall (fun entry => in_range (data entry)) (logs s).
Proof.
  intros Hr. destruct (reachable_chronicle s Hr) as (es & ps & Hc).
  destruct (chronicle_buffers es ps s Hc) as (_ & Hl & _).
  destruct (chronicle_links es ps s Hc) as (_ & _ & Hd & _ & Hrange).
  rewrite Hl. apply Forall_firstn, Forall_rev, Forall_map.
  rewrite Hd. apply Forall_map in Hrange. exact Hrange.
Qed.

(** X18. The event stream shows its placeholder exactly until the first
    tick: once a tick has happened the log is never empty again.  After
    that it shows min(5, number of ticks) rows, and the three numbers of
    each row are whole numbers between 0 and 100. *)
Theorem event_stream_after_first_tick (s : Engine) :
  reachable s ->
  (event_stream (logs s) = None <-> logIdRef s = 0%nat) /\
  (forall rows, event_stream (logs s) = Some rows ->
     List.length rows = Nat.min 5 (logIdRef s) /\
     Forall (fun r =>
               (0 <= fst (fst (row_levels r)) <= 100)%Z /\
               (0 <= snd (fst (row_levels r)) <= 100)%Z /\
               (0 <= snd (row_levels r) <= 100)%Z) rows).
Proof.
  intros Hr. pose proof (reachable_log_length s Hr) as Hlen.
  pose proof (reachable_log_data_in_range s Hr) as Hrange.
  unfold event_stream. split.
  - destruct (Nat.eqb_spec (List.length (logs s)) 0) as [E|N].
    + split; [intros _; lia | reflexivity].
    + split; [discriminate | intros E0; exfalso; lia].
  - intros rows Hrows.
    destruct (List.length (logs s) =? 0)%nat; [discriminate|].
    injection Hrows as <-. split; [rewrite length_map; exact Hlen|].
    apply Forall_map. eapply Forall_impl; [|exact Hrange].
    intros entry (Hd & Ho & Hc). cbn [log_row row_levels fst snd].
    repeat split; apply Math_round_range; assumption.
Qed.

Lemma event_stream_after_first_tick_witness :
  (event_stream (logs after_argument) = None <-> logIdRef after_argument = 0%nat) /\
  (forall rows, event_stream (logs after_argument) = Some rows ->
     List.length rows = Nat.min 5 (logIdRef after_argument) /\
     Forall (fun r =>
               (0 <= fst (fst (row_levels r)) <= 100)%Z /\
               (0 <= snd (fst (row_levels r)) <= 100)%Z /\
               (0 <= snd (row_levels r) <= 100)%Z) rows).
Proof.
  exact (event_stream_after_first_tick after_argument reachable_after_argument).
Defined.

(** X19. For each of the drawn events, the row of its log entry carries the
    event in capitals with the underscore replaced by a space, and the label
    is red exactly when the event is an argument. *)
Theorem argument_rows_are_red (e t : string) (s : Engine) :
  In e events ->
  (row_color (log_row (newLog e t s)) = "text-red-400" <-> e = "argument") /\
  (row_color (log_row (newLog e t s)) = "text-indigo-400" <-> e <> "argument") /\
  In (row_event (log_row (newLog e t s)))
     ["PHYSICAL TOUCH"; "ARGUMENT"; "DEEP TALK"; "NONE"].
Proof.
  cbn [events In]. intros [<-|[<-|[<-|[<-|[<-|[]]]]]];
    cbn; repeat split; intros; try discriminate; try reflexivity;
    try congruence; auto 6.
Qed.

Lemma argument_rows_are_red_witness :
  (row_color (log_row (newLog "argument" "12:00:01" mount)) = "text-red-400"
   <-> "argument" = "argument") /\
  (row_color (log_row (newLog "argument" "12:00:01" mount)) = "text-indigo-400"
   <-> "argument" <> "argument") /\
  In (row_event (log_row (newLog "argument" "12:00:01" mount)))
     ["PHYSICAL TOUCH"; "ARGUMENT"; "DEEP TALK"; "NONE"].
Proof.
  apply (argument_rows_are_red "argument" "12:00:01" mount).
  right; left; reflexivity.
Defined.

(** ** The doubles along a run *)

Lemma lockstep_after_argument :
  lockstep after_argument (updateBioDataF "argument" (mkChemistryF 50 50 20)).
Proof.
  unfold after_argument.
  apply lock_interval with (h := 1%nat) (random := 1#5).
  - apply lock_click, lock_mount.
  - left; reflexivity.
  - discriminate.
  - reflexivity.
  - reflexivity.
Qed.

(** X20. The arithmetic of the component never rounds: along every run the
    doubles the source computes are exactly the levels of the model, each a
    count of halves between 0 and 100, and the tests of the memo come out
    the same, so the recommendations computed from the doubles are those of
    the model. *)
Theorem doubles_agree_along_runs (s : Engine) (cF : ChemistryF) :
  lockstep s cF ->
  exact cF (chemistry s) /\
  recommendationsF cF = recommendations (chemistry s) /\
  PrimFloat.ltb 60 (CortisolF cF) = JS.gt (Cortisol (chemistry s)) 60 /\
  PrimFloat.ltb (OxytocinF cF) 40 = JS.lt (Oxytocin (chemistry s)) 40 /\
  PrimFloat.ltb (DopamineF cF) 30 = JS.lt (Dopamine (chemistry s)) 30.
Proof.
  intros Hl. pose proof (lockstep_exact s cF Hl) as He.
  split; [exact He|]. split; [apply recommendationsF_exact; exact He|].
  destruct He as (k1 & k2 & k3 & B1 & B2 & B3 & (Ed & Eo & Ec) & ->).
  cbn [DopamineF OxytocinF CortisolF].
  cbn [Dopamine Oxytocin Cortisol] in Ed, Eo, Ec.
  destruct (compare_halves k1 B1) as (_ & _ & ->).
  destruct (compare_halves k2 B2) as (_ & -> & _).
  destruct (compare_halves k3 B3) as (-> & _ & _).
  unfold JS.gt, JS.lt. rewrite Ed, Eo, Ec. repeat split.
Qed.

Lemma doubles_agree_along_runs_witness :
  exact (updateBioDataF "argument" (mkChemistryF 50 50 20)) (chemistry after_argument) /\
  recommendationsF (updateBioDataF "argument" (mkChemistryF 50 50 20)) =
    recommendations (chemistry after_argument) /\
  PrimFloat.ltb 60 (CortisolF (updateBioDataF "argument" (mkChemistryF 50 50 20))) =
    JS.gt (Cortisol (chemistry after_argument)) 60 /\
  PrimFloat.ltb (OxytocinF (updateBioDataF "argument" (mkChemistryF 50 50 20))) 40 =
    JS.lt (Oxytocin (chemistry after_argument)) 40 /\
  PrimFloat.ltb (DopamineF (updateBioDataF "argument" (mkChemistryF 50 50 20))) 30 =
    JS.lt (Dopamine (chemistry after_argument)) 30.
Proof. exact (doubles_agree_along_runs _ _ lockstep_after_argument). Defined.

(** X21. The recommendation panel shows between one and three cards, no
    two with the same title, and the optimal card never together with
    another one. *)
Theorem recommendation_cards (c : Chemistry) :
  (1 <= List.length (recommendations c) <= 3)%nat /\
  NoDup (map type (recommendations c)) /\
  (In optimal_state (recommendations c) -> recommendations c = [optimal_state]).
Proof.
  rewrite recommendations_cases.
  destruct (JS.gt (Cortisol c) 60), (JS.lt (Oxytocin c) 40), (JS.lt (Dopamine c) 30);
    cbn [orb List.app List.length map];
    (split; [lia|]);
    (split; [repeat constructor; cbn [In type stress_alert bonding_deficit
                                        low_reward optimal_state];
             intros H; distinct_cards; discriminate|]);
    cbn [In]; intros H; distinct_cards; reflexivity.
Qed.
